(** * WALLYBOTTY: order execution and strategy decision core

    A shallow embedding of [src/core/executor.py] (class [OrderExecutor]
    with its [Order] and [Trade] records) and of the constants of
    [src/config/settings.py] it reads.  The module [core/strategy.py]
    that the executor imports is not part of the sources at hand; its
    signal type, position store and [evaluate] are modelled from the
    specification and marked as such.

    Modelling decisions:
    - Python's [float] is IEEE-754 binary64: Rocq's primitive floats.
      The executor is written over the class [PyFloat], of which binary64
      is the instance, so that what depends on the control flow alone is
      proved without unfolding the arithmetic; what depends on the
      arithmetic is proved in binary64.
    - A call runs in the state monad [M] over [World]: the executor
      object, the strategy singleton, the ledger file and the clock.  An
      uncaught Python exception is the outcome [Raise].
    - [self.trades] is an insertion-ordered dictionary: an association
      list; [self.paper_balance] and the position store are finite maps.
    - Logging writes no state and is left out.  Its format strings fail
      only on a value that is no number, which only an exchange answer
      with a null [average] brings about (see [OrderResult]). *)

From Stdlib Require Import Floats QArith ZArith Lia.
From stdpp Require Import gmap strings list pretty.

Set Default Proof Using "Type".

(** ** Python numbers *)

Class PyFloat (F : Type) := {
  fadd : F -> F -> F;
  fsub : F -> F -> F;
  fmul : F -> F -> F;
  fdiv : F -> F -> F;
  (** [x < y] and [x <= y]; [x > y] is [y < x], [x >= y] is [y <= x]. *)
  flt : F -> F -> bool;
  fle : F -> F -> bool;
  (** [x == 0]: the falsy numbers of Python. *)
  feq0 : F -> bool;
  (** A decimal literal of the source text. *)
  flit : Q -> F;
  (** A number equal to zero is not above zero. *)
  feq0_fle : forall x, feq0 x = true -> fle x (flit 0) = true
}.

Declare Scope py_scope.
Delimit Scope py_scope with py.
Notation "x + y" := (fadd x y) : py_scope.
Notation "x - y" := (fsub x y) : py_scope.
Notation "x * y" := (fmul x y) : py_scope.
Notation "x / y" := (fdiv x y) : py_scope.
Notation "x <? y" := (flt x y) : py_scope.
Notation "x <=? y" := (fle x y) : py_scope.
Notation "x >? y" := (flt y x) : py_scope.
Notation "x >=? y" := (fle y x) : py_scope.

(** ** Exceptions and the state monad of the process *)

Inductive exn := KeyError | ZeroDivisionError | AttributeError | ExchangeError.

Inductive outcome (A : Type) :=
| Return (a : A)
| Raise (e : exn).
Arguments Return {A} a.
Arguments Raise {A} e.

(** [datetime] values: readings of a logical clock. *)
Definition datetime := nat.

Inductive OrderStatus := PENDING | FILLED | CANCELLED | FAILED.

(** Modelled from the spec: [SignalType] of the absent [core/strategy.py],
    "signal_type∈{BUY,SELL,HOLD}". *)
Inductive SignalType := BUY | SELL | HOLD.

Definition SignalType_eqb (a b : SignalType) : bool :=
  match a, b with
  | BUY, BUY | SELL, SELL | HOLD, HOLD => true
  | _, _ => false
  end.

Section Model.
Context {F : Type} `{PyFloat F}.
Local Open Scope py_scope.

(** Python's true division: a zero divisor raises. *)
Definition py_div (x y : F) : outcome F :=
  if feq0 y then Raise ZeroDivisionError else Return (x / y).

(** [a or b] on an optional number: [None] and zero are falsy. *)
Definition py_or (a : option F) (b : F) : F :=
  match a with
  | Some x => if feq0 x then b else x
  | None => b
  end.

(** *** [config/settings.py] *)

Definition DEFAULT_TRADE_AMOUNT_USDT : F := flit 100.
Definition MAX_TRADE_AMOUNT_USDT : F := flit 1000.
Definition MIN_TRADE_AMOUNT_USDT : F := flit 10.
Definition MAX_OPEN_POSITIONS : nat := 5.
Definition MAX_POSITION_PER_COIN : nat := 1.
Definition PAPER_TRADING : bool := true.

(** *** Records of [core/executor.py] *)

Record Order := {
  order_id : string;
  order_symbol : string;
  order_side : string;
  order_type : string;
  order_quantity : F;
  order_price : F;
  order_status : OrderStatus;
  order_timestamp : datetime;
  filled_price : F;
  fee : F;
  order_is_paper : bool
}.

Record Trade := {
  trade_id : string;
  trade_symbol : string;
  trade_side : string;
  trade_quantity : F;
  entry_price : F;
  exit_price : F;
  pnl : F;
  pnl_percent : F;
  entry_time : option datetime;
  exit_time : option datetime;
  trade_is_paper : bool;
  trade_status : string
}.

(** *** The strategy engine *)

(** Modelled from the spec: [TradingSignal] of the absent
    [core/strategy.py]; "A Signal carries signal_type, symbol, price,
    reasons: ordered list of strings". *)
Record TradingSignal := {
  signal_type : SignalType;
  symbol : string;
  price : F;
  reasons : list string
}.

(** Modelled from the spec: [Position] of the absent [core/strategy.py];
    "symbol, entry_price, quantity, opened_at". *)
Record Position := {
  pos_symbol : string;
  pos_entry_price : F;
  pos_quantity : F;
  opened_at : datetime
}.

(** Modelled from the spec: the buy-condition set of [TriggerConfig]. *)
Record BuyTriggers := {
  rsi_below : F;
  dip_percent : F;
  volume_spike : F;
  buy_enabled : bool
}.

(** Modelled from the spec: the sell-condition set of [TriggerConfig]. *)
Record SellTriggers := {
  rsi_above : F;
  rise_percent : F;
  stop_loss : F;
  take_profit : F;
  sell_enabled : bool
}.

(** Modelled from the spec: the state of the [StrategyEngine] singleton
    of the absent [core/strategy.py]: its trigger configuration and its
    position store, "a mapping from symbol to at most one open
    Position". *)
Record TradingStrategy := {
  buy_triggers : BuyTriggers;
  sell_triggers : SellTriggers;
  positions : gmap string Position
}.

(** The defaults of [settings.DEFAULT_BUY_TRIGGERS] and
    [settings.DEFAULT_SELL_TRIGGERS]. *)
Definition DEFAULT_BUY_TRIGGERS : BuyTriggers :=
  {| rsi_below := flit 30; dip_percent := flit 5;
     volume_spike := flit (3 # 2); buy_enabled := true |}.

Definition DEFAULT_SELL_TRIGGERS : SellTriggers :=
  {| rsi_above := flit 70; rise_percent := flit 10; stop_loss := flit 5;
     take_profit := flit 15; sell_enabled := true |}.

Definition set_positions (s : TradingStrategy) (p : gmap string Position)
  : TradingStrategy :=
  {| buy_triggers := buy_triggers s; sell_triggers := sell_triggers s;
     positions := p |}.

(** Modelled from the spec: [get_position] of the absent
    [core/strategy.py]. *)
Definition get_position (sym : string) (s : TradingStrategy)
  : option Position :=
  positions s !! sym.

(** Modelled from the spec: [can_open_position] of the absent
    [core/strategy.py]; "true iff the symbol has no existing open
    Position AND the count of all open Positions is below the configured
    maximum AND the count of open Positions for that symbol is below the
    per-symbol maximum". *)
Definition can_open_position (sym : string) (s : TradingStrategy) : bool :=
  match positions s !! sym with
  | Some _ => false
  | None =>
      bool_decide (size (positions s) < MAX_OPEN_POSITIONS)%nat
      && bool_decide (0 < MAX_POSITION_PER_COIN)%nat
  end.

(** Modelled from the spec: [add_position] of the absent
    [core/strategy.py]; "creates and stores a Position", the capacity
    check being left to the caller. *)
Definition add_position (sym : string) (p q : F) (now : datetime)
    (s : TradingStrategy) : TradingStrategy :=
  set_positions s
    (<[sym := {| pos_symbol := sym; pos_entry_price := p;
                 pos_quantity := q; opened_at := now |}]> (positions s)).

(** Modelled from the spec: [close_position] of the absent
    [core/strategy.py]; "removes the Position for symbol; no-op if
    absent". *)
Definition close_position (sym : string) (s : TradingStrategy)
  : TradingStrategy :=
  set_positions s (delete sym (positions s)).

(** The four keys of the indicator snapshot that [evaluate] reads. *)
Record Indicators := {
  ind_price : F;
  ind_rsi : F;
  ind_dip_percent : F;
  ind_volume_spike : F
}.

(** [IndicatorCalculator.calculate_rise_from_entry] of
    [core/indicators.py].  The division cannot raise: a zero entry price
    is caught by the guard (see [py_div_guarded]). *)
Definition calculate_rise_from_entry (current_price entry : F) : F :=
  if entry <=? flit 0 then flit 0
  else ((current_price - entry) / entry) * flit 100.

(** A trigger condition with the reason it contributes when it holds. *)
Definition matched (conds : list (bool * string)) : list string :=
  (filter (fun c => Is_true (fst c)) conds).*2.

(** Modelled from the spec: the buy conditions of [evaluate],
    "rsi ≤ rsi_below, dip_percent ≥ dip_percent_threshold,
    volume_spike ≥ volume_spike_threshold". *)
Definition buy_conditions (t : BuyTriggers) (i : Indicators)
  : list (bool * string) :=
  [ (ind_rsi i <=? rsi_below t, "rsi_below");
    (ind_dip_percent i >=? dip_percent t, "dip_percent");
    (ind_volume_spike i >=? volume_spike t, "volume_spike") ].

(** Modelled from the spec: the sell conditions of [evaluate],
    "rsi ≥ rsi_above, rise-from-entry ≥ rise_percent, drawdown-from-entry
    ≥ stop_loss, profit-from-entry ≥ take_profit". *)
Definition sell_conditions (t : SellTriggers) (i : Indicators)
    (pos : Position) : list (bool * string) :=
  let change := calculate_rise_from_entry (ind_price i) (pos_entry_price pos) in
  [ (ind_rsi i >=? rsi_above t, "rsi_above");
    (change >=? rise_percent t, "rise_percent");
    ((flit 0 - change) >=? stop_loss t, "stop_loss");
    (change >=? take_profit t, "take_profit") ].

(** Modelled from the spec: [evaluate] of the absent [core/strategy.py].
    Buy evaluation is attempted only if buy triggers are enabled and a
    position can be opened, and fires when all buy conditions hold; sell
    evaluation is attempted only if sell triggers are enabled and a
    position is open, and fires when any sell condition holds; otherwise
    HOLD with empty reasons. *)
Definition evaluate (sym : string) (i : Indicators) (s : TradingStrategy)
  : TradingSignal :=
  let hold := {| signal_type := HOLD; symbol := sym; price := ind_price i;
                 reasons := [] |} in
  match get_position sym s with
  | None =>
      if buy_enabled (buy_triggers s) && can_open_position sym s then
        let conds := buy_conditions (buy_triggers s) i in
        if forallb fst conds then
          {| signal_type := BUY; symbol := sym; price := ind_price i;
             reasons := matched conds |}
        else hold
      else hold
  | Some pos =>
      if sell_enabled (sell_triggers s) then
        let conds := sell_conditions (sell_triggers s) i pos in
        if existsb fst conds then
          {| signal_type := SELL; symbol := sym; price := ind_price i;
             reasons := matched conds |}
        else hold
      else hold
  end.

(** *** The exchange adapter (live mode) *)

(** The [fee] entry of an exchange result: JSON null or an object with an
    optional [cost]. *)
Inductive FeeField :=
| FeeNull
| FeeDict (cost : option F).

(** The result dictionary of a market order; [None] is an absent key.
    A present [average] is a number.  An answer whose [average] is
    present but null is outside the model: [_live_buy] then records an
    [Order] and a [Trade] whose prices are [None], hands [None] to
    [add_position] of the absent [core/strategy.py], on which the
    specification is silent, and fails at the log line; no statement
    below is made about such an answer. *)
Record OrderResult := {
  r_id : option string;
  r_status : option string;
  r_average : option F;
  r_fee : option FeeField
}.

(** The ccxt exchange object as an oracle: [None] is a raised
    exception. *)
Record Exchange := {
  create_market_buy_order : string -> F -> option OrderResult;
  create_market_sell_order : string -> F -> option OrderResult
}.

(** *** The ledger file [settings.TRADE_LOG_FILE] *)

Record LedgerData := {
  ledger_trades : list Trade;
  ledger_orders : list Order;
  ledger_paper_balance : option (gmap string F)
}.

Inductive JsonTop :=
| JObject (d : LedgerData)
| JNonObject.

Inductive LedgerFile :=
| FileAbsent
| FileUnreadable
| FileJson (data : JsonTop).

(** *** [OrderExecutor] *)

Record OrderExecutor := {
  exchange_name : string;
  paper_mode : bool;
  exchange : option Exchange;
  orders : list Order;
  trades : list (string * Trade);
  _order_counter : nat;
  _trade_counter : nat;
  paper_balance : gmap string F
}.

(** The process state an executor call can read or write: the executor
    object, the strategy singleton, the ledger file, the disk and the
    clock.  [fs_writable] tells whether a write of the ledger file goes
    through; when it does not, [fs_truncates] tells where it fails: after
    [open(..., 'w')] has truncated the file (a failing [json.dump] or
    flush), or before (a failing [os.makedirs] or [open]). *)
Record World := {
  self : OrderExecutor;
  strategy : TradingStrategy;
  trade_log_file : LedgerFile;
  fs_writable : bool;
  fs_truncates : bool;
  clock : datetime
}.

Definition M (A : Type) : Type := World -> outcome A * World.

Definition ret {A} (a : A) : M A := fun w => (Return a, w).
Definition raise {A} (e : exn) : M A := fun w => (Raise e, w).
Definition bind {A B} (c : M A) (k : A -> M B) : M B :=
  fun w => match c w with
           | (Return a, w') => k a w'
           | (Raise e, w') => (Raise e, w')
           end.
Definition lift {A} (o : outcome A) : M A := fun w => (o, w).
Definition gets {A} (f : World -> A) : M A := fun w => (Return (f w), w).
Definition modify (f : World -> World) : M unit := fun w => (Return tt, f w).

(** [try: body except Exception: handler]; what the body wrote before
    raising stays written. *)
Definition try_except {A} (body : M A) (handler : M A) : M A :=
  fun w => match body w with
           | (Return a, w') => (Return a, w')
           | (Raise _, w') => handler w'
           end.

Notation "x <- c ;; k" := (bind c (fun x => k))
  (at level 100, c at next level, right associativity).
Notation "c ;;; k" := (bind c (fun _ => k))
  (at level 100, right associativity).

(** [datetime.now()]: a call is instantaneous, every reading within it
    sees the same instant. *)
Definition datetime_now : M datetime := gets clock.

(** *** Field updates *)

Definition set_paper_mode (b : bool) (e : OrderExecutor) : OrderExecutor :=
  {| exchange_name := exchange_name e; paper_mode := b;
     exchange := exchange e; orders := orders e; trades := trades e;
     _order_counter := _order_counter e; _trade_counter := _trade_counter e;
     paper_balance := paper_balance e |}.

Definition set_exchange (x : option Exchange) (e : OrderExecutor)
  : OrderExecutor :=
  {| exchange_name := exchange_name e; paper_mode := paper_mode e;
     exchange := x; orders := orders e; trades := trades e;
     _order_counter := _order_counter e; _trade_counter := _trade_counter e;
     paper_balance := paper_balance e |}.

Definition set_orders (l : list Order) (e : OrderExecutor) : OrderExecutor :=
  {| exchange_name := exchange_name e; paper_mode := paper_mode e;
     exchange := exchange e; orders := l; trades := trades e;
     _order_counter := _order_counter e; _trade_counter := _trade_counter e;
     paper_balance := paper_balance e |}.

Definition set_trades (d : list (string * Trade)) (e : OrderExecutor)
  : OrderExecutor :=
  {| exchange_name := exchange_name e; paper_mode := paper_mode e;
     exchange := exchange e; orders := orders e; trades := d;
     _order_counter := _order_counter e; _trade_counter := _trade_counter e;
     paper_balance := paper_balance e |}.

Definition set__order_counter (n : nat) (e : OrderExecutor) : OrderExecutor :=
  {| exchange_name := exchange_name e; paper_mode := paper_mode e;
     exchange := exchange e; orders := orders e; trades := trades e;
     _order_counter := n; _trade_counter := _trade_counter e;
     paper_balance := paper_balance e |}.

Definition set__trade_counter (n : nat) (e : OrderExecutor) : OrderExecutor :=
  {| exchange_name := exchange_name e; paper_mode := paper_mode e;
     exchange := exchange e; orders := orders e; trades := trades e;
     _order_counter := _order_counter e; _trade_counter := n;
     paper_balance := paper_balance e |}.

Definition set_paper_balance (b : gmap string F) (e : OrderExecutor)
  : OrderExecutor :=
  {| exchange_name := exchange_name e; paper_mode := paper_mode e;
     exchange := exchange e; orders := orders e; trades := trades e;
     _order_counter := _order_counter e; _trade_counter := _trade_counter e;
     paper_balance := b |}.

Definition set_self (e : OrderExecutor) (w : World) : World :=
  {| self := e; strategy := strategy w; trade_log_file := trade_log_file w;
     fs_writable := fs_writable w; fs_truncates := fs_truncates w;
     clock := clock w |}.

Definition set_strategy (s : TradingStrategy) (w : World) : World :=
  {| self := self w; strategy := s; trade_log_file := trade_log_file w;
     fs_writable := fs_writable w; fs_truncates := fs_truncates w;
     clock := clock w |}.

Definition set_trade_log_file (f : LedgerFile) (w : World) : World :=
  {| self := self w; strategy := strategy w; trade_log_file := f;
     fs_writable := fs_writable w; fs_truncates := fs_truncates w;
     clock := clock w |}.

Definition on_self (f : OrderExecutor -> OrderExecutor) : M unit :=
  modify (fun w => set_self (f (self w)) w).

Definition on_strategy (f : TradingStrategy -> TradingStrategy) : M unit :=
  modify (fun w => set_strategy (f (strategy w)) w).

(** *** Python dictionaries *)

(** [d[k]] on the balance dictionary. *)
Definition subscript (d : gmap string F) (k : string) : outcome F :=
  match d !! k with
  | Some v => Return v
  | None => Raise KeyError
  end.

(** [result[k]] on an exchange result. *)
Definition result_key {A} (field : option A) : outcome A :=
  match field with
  | Some v => Return v
  | None => Raise KeyError
  end.

(** [self.trades[k] = v]: the trades dictionary keeps insertion order; an
    existing key keeps its place. *)
Fixpoint dict_set (k : string) (v : Trade) (d : list (string * Trade))
  : list (string * Trade) :=
  match d with
  | [] => [(k, v)]
  | (k', v') :: d' =>
      if String.eqb k' k then (k', v) :: d' else (k', v') :: dict_set k v d'
  end.

(** *** Persistence *)

Definition get_trade_history (e : OrderExecutor) : list Trade := (trades e).*2.
Definition get_order_history (e : OrderExecutor) : list Order := orders e.

(** [_save_trade_history]: the file is overwritten wholesale; a failing
    write is swallowed.  As [open(..., 'w')] truncates, a write that fails
    after the open leaves an empty or partial file, which does not parse;
    one that fails before leaves the file as it was. *)
Definition _save_trade_history : M unit :=
  fun w =>
    if fs_writable w then
      (Return tt,
       set_trade_log_file
         (FileJson (JObject
            {| ledger_trades := get_trade_history (self w);
               ledger_orders := get_order_history (self w);
               ledger_paper_balance := Some (paper_balance (self w)) |})) w)
    else if fs_truncates w then
      (Return tt, set_trade_log_file FileUnreadable w)
    else (Return tt, w).

(** [reset_paper_funds]: only effective in paper mode. *)
Definition reset_paper_funds (amount : F) : M unit :=
  paper <- gets (fun w => paper_mode (self w)) ;;
  if paper then
    on_self (fun e =>
      set_paper_balance (<["USDT" := amount]> (paper_balance e)) e) ;;;
    _save_trade_history
  else ret tt.

(** The starting balance [{'USDT': 10000.0}]. *)
Definition initial_paper_balance : gmap string F := {[ "USDT" := flit 10000 ]}.

(** [_load_trade_history]: any exception is swallowed. *)
Definition _load_trade_history (file : LedgerFile) (e : OrderExecutor)
  : OrderExecutor :=
  match file with
  | FileAbsent => e
  | FileUnreadable => e
  | FileJson JNonObject => e
  | FileJson (JObject data) =>
      set_paper_balance
        (default initial_paper_balance (ledger_paper_balance data)) e
  end.

(** [_init_exchange]; [ccxt] is [None] when the library is not installed,
    and the constructor lookup is [None] when it raises. *)
Definition _init_exchange (ccxt : option (string -> option Exchange))
    (e : OrderExecutor) : OrderExecutor :=
  match ccxt with
  | None => set_paper_mode true e
  | Some lib =>
      match lib (exchange_name e) with
      | Some x => set_exchange (Some x) e
      | None => set_paper_mode true e
      end
  end.

(** [OrderExecutor.__init__]; [DEFAULT_EXCHANGE] is read from the process
    environment by [settings]. *)
Definition __init__ (DEFAULT_EXCHANGE : string)
    (ccxt : option (string -> option Exchange)) (file : LedgerFile)
    (exchange_name_arg : option string) (paper_mode_arg : option bool)
  : OrderExecutor :=
  let e :=
    {| exchange_name :=
         match exchange_name_arg with
         | Some n => if String.eqb n "" then DEFAULT_EXCHANGE else n
         | None => DEFAULT_EXCHANGE
         end;
       paper_mode := default PAPER_TRADING paper_mode_arg;
       exchange := None;
       orders := [];
       trades := [];
       _order_counter := 0;
       _trade_counter := 0;
       paper_balance := initial_paper_balance |} in
  let e := if negb (paper_mode e) then _init_exchange ccxt e else e in
  _load_trade_history file e.

(** *** Paper mode *)

(** [_paper_buy]. *)
Definition _paper_buy (sym : string) (quantity price : F)
    (signal : TradingSignal) : M (option Order) :=
  let cost := quantity * price in
  bal <- gets (fun w => paper_balance (self w)) ;;
  if default (flit 0) (bal !! "USDT") <? cost then ret None else
  b <- lift (subscript bal "USDT") ;;
  on_self (set_paper_balance (<["USDT" := b - cost]> bal)) ;;;
  on_self (fun e => set__order_counter (_order_counter e + 1) e) ;;;
  n <- gets (fun w => _order_counter (self w)) ;;
  now <- datetime_now ;;
  let order :=
    {| order_id := "PAPER-" +:+ pretty n;
       order_symbol := sym;
       order_side := "buy";
       order_type := "market";
       order_quantity := quantity;
       order_price := price;
       order_status := FILLED;
       order_timestamp := now;
       filled_price := price;
       fee := cost * flit (1 # 1000);
       order_is_paper := true |} in
  on_self (fun e => set_orders (orders e ++ [order]) e) ;;;
  on_self (fun e => set__trade_counter (_trade_counter e + 1) e) ;;;
  m <- gets (fun w => _trade_counter (self w)) ;;
  now' <- datetime_now ;;
  let trade :=
    {| trade_id := "TRADE-" +:+ pretty m;
       trade_symbol := sym;
       trade_side := "long";
       trade_quantity := quantity;
       entry_price := price;
       exit_price := flit 0;
       pnl := flit 0;
       pnl_percent := flit 0;
       entry_time := Some now';
       exit_time := None;
       trade_is_paper := true;
       trade_status := "open" |} in
  on_self (fun e => set_trades (dict_set (trade_id trade) trade (trades e)) e) ;;;
  opened <- datetime_now ;;
  on_strategy (add_position sym price quantity opened) ;;;
  _save_trade_history ;;;
  ret (Some order).

(** The assignments of the trade-closing loop body. *)
Definition close_trade (t : Trade) (xp : F) (now : datetime) (p pp : F)
  : Trade :=
  {| trade_id := trade_id t;
     trade_symbol := trade_symbol t;
     trade_side := trade_side t;
     trade_quantity := trade_quantity t;
     entry_price := entry_price t;
     exit_price := xp;
     pnl := p;
     pnl_percent := pp;
     entry_time := entry_time t;
     exit_time := Some now;
     trade_is_paper := trade_is_paper t;
     trade_status := "closed" |}.

(** The loop guard [trade.symbol == symbol and trade.status == 'open']. *)
Definition is_open_for (sym : string) (t : Trade) : bool :=
  String.eqb (trade_symbol t) sym && String.eqb (trade_status t) "open".

(** [for trade in self.trades.values(): if ...: ...; break]. *)
Fixpoint close_first_open (sym : string) (xp : F) (now : datetime)
    (p pp : F) (d : list (string * Trade)) : list (string * Trade) :=
  match d with
  | [] => []
  | (k, t) :: d' =>
      if is_open_for sym t then (k, close_trade t xp now p pp) :: d'
      else (k, t) :: close_first_open sym xp now p pp d'
  end.

(** [_paper_sell]. *)
Definition _paper_sell (sym : string) (quantity price entry : F)
    (signal : TradingSignal) : M (option Order) :=
  let proceeds := quantity * price in
  let cost := quantity * entry in
  let pnl := proceeds - cost in
  ratio <- lift (py_div pnl cost) ;;
  let pnl_percent := ratio * flit 100 in
  bal <- gets (fun w => paper_balance (self w)) ;;
  b <- lift (subscript bal "USDT") ;;
  on_self (set_paper_balance (<["USDT" := b + proceeds]> bal)) ;;;
  on_self (fun e => set__order_counter (_order_counter e + 1) e) ;;;
  n <- gets (fun w => _order_counter (self w)) ;;
  now <- datetime_now ;;
  let order :=
    {| order_id := "PAPER-" +:+ pretty n;
       order_symbol := sym;
       order_side := "sell";
       order_type := "market";
       order_quantity := quantity;
       order_price := price;
       order_status := FILLED;
       order_timestamp := now;
       filled_price := price;
       fee := proceeds * flit (1 # 1000);
       order_is_paper := true |} in
  on_self (fun e => set_orders (orders e ++ [order]) e) ;;;
  now' <- datetime_now ;;
  on_self (fun e =>
    set_trades (close_first_open sym price now' pnl pnl_percent (trades e)) e) ;;;
  on_strategy (close_position sym) ;;;
  _save_trade_history ;;;
  ret (Some order).

(** *** Live mode *)

(** [OrderStatus.FILLED if result['status'] == 'closed' else
    OrderStatus.PENDING]. *)
Definition live_status (status : string) : OrderStatus :=
  if String.eqb status "closed" then FILLED else PENDING.

(** [result.get('fee', {}).get('cost', 0)]: a null fee has no [get]. *)
Definition live_fee (r : OrderResult) : outcome F :=
  match r_fee r with
  | None => Return (flit 0)
  | Some FeeNull => Raise AttributeError
  | Some (FeeDict c) => Return (default (flit 0) c)
  end.

(** A call of the exchange; its failure is an exception in the caller. *)
Definition exchange_call (r : option OrderResult) : outcome OrderResult :=
  match r with
  | Some res => Return res
  | None => Raise ExchangeError
  end.

(** [_live_buy].  The log line that precedes the save formats
    [order.filled_price], which is a number here (see [OrderResult]). *)
Definition _live_buy (sym : string) (quantity price : F)
    (signal : TradingSignal) : M (option Order) :=
  ex <- gets (fun w => exchange (self w)) ;;
  match ex with
  | None => ret None
  | Some ex =>
      try_except
        (result <- lift (exchange_call (create_market_buy_order ex sym quantity)) ;;
         id <- lift (result_key (r_id result)) ;;
         status <- lift (result_key (r_status result)) ;;
         now <- datetime_now ;;
         fee_cost <- lift (live_fee result) ;;
         let order :=
           {| order_id := id;
              order_symbol := sym;
              order_side := "buy";
              order_type := "market";
              order_quantity := quantity;
              order_price := price;
              order_status := live_status status;
              order_timestamp := now;
              filled_price := default price (r_average result);
              fee := fee_cost;
              order_is_paper := false |} in
         on_self (fun e => set_orders (orders e ++ [order]) e) ;;;
         on_self (fun e => set__trade_counter (_trade_counter e + 1) e) ;;;
         m <- gets (fun w => _trade_counter (self w)) ;;
         now' <- datetime_now ;;
         let trade :=
           {| trade_id := "TRADE-" +:+ pretty m;
              trade_symbol := sym;
              trade_side := "long";
              trade_quantity := quantity;
              entry_price := filled_price order;
              exit_price := flit 0;
              pnl := flit 0;
              pnl_percent := flit 0;
              entry_time := Some now';
              exit_time := None;
              trade_is_paper := false;
              trade_status := "open" |} in
         on_self (fun e =>
           set_trades (dict_set (trade_id trade) trade (trades e)) e) ;;;
         opened <- datetime_now ;;
         on_strategy (add_position sym (filled_price order) quantity opened) ;;;
         _save_trade_history ;;;
         ret (Some order))
        (ret None)
  end.

(** [_live_sell]. *)
Definition _live_sell (sym : string) (quantity price entry : F)
    (signal : TradingSignal) : M (option Order) :=
  ex <- gets (fun w => exchange (self w)) ;;
  match ex with
  | None => ret None
  | Some ex =>
      try_except
        (result <- lift (exchange_call (create_market_sell_order ex sym quantity)) ;;
         let filled := default price (r_average result) in
         let proceeds := quantity * filled in
         let cost := quantity * entry in
         let pnl := proceeds - cost in
         ratio <- lift (py_div pnl cost) ;;
         let pnl_percent := ratio * flit 100 in
         id <- lift (result_key (r_id result)) ;;
         status <- lift (result_key (r_status result)) ;;
         now <- datetime_now ;;
         fee_cost <- lift (live_fee result) ;;
         let order :=
           {| order_id := id;
              order_symbol := sym;
              order_side := "sell";
              order_type := "market";
              order_quantity := quantity;
              order_price := price;
              order_status := live_status status;
              order_timestamp := now;
              filled_price := filled;
              fee := fee_cost;
              order_is_paper := false |} in
         on_self (fun e => set_orders (orders e ++ [order]) e) ;;;
         now' <- datetime_now ;;
         on_self (fun e =>
           set_trades
             (close_first_open sym filled now' pnl pnl_percent (trades e)) e) ;;;
         on_strategy (close_position sym) ;;;
         _save_trade_history ;;;
         ret (Some order))
        (ret None)
  end.

(** *** Dispatch *)

(** [_execute_buy]. *)
Definition _execute_buy (signal : TradingSignal) (amount_usdt : F)
  : M (option Order) :=
  let sym := symbol signal in
  let price := price signal in
  if price <=? flit 0 then ret None else
  quantity <- lift (py_div amount_usdt price) ;;
  strat <- gets strategy ;;
  if negb (can_open_position sym strat) then ret None else
  paper <- gets (fun w => paper_mode (self w)) ;;
  if paper then _paper_buy sym quantity price signal
  else _live_buy sym quantity price signal.

(** [_execute_sell]. *)
Definition _execute_sell (signal : TradingSignal) : M (option Order) :=
  let sym := symbol signal in
  let price := price signal in
  strat <- gets strategy ;;
  match get_position sym strat with
  | None => ret None
  | Some position =>
      paper <- gets (fun w => paper_mode (self w)) ;;
      if paper then
        _paper_sell sym (pos_quantity position) price
          (pos_entry_price position) signal
      else
        _live_sell sym (pos_quantity position) price
          (pos_entry_price position) signal
  end.

(** The amount after [amount_usdt or settings.DEFAULT_TRADE_AMOUNT_USDT]. *)
Definition requested_amount (amount_usdt : option F) : F :=
  py_or amount_usdt DEFAULT_TRADE_AMOUNT_USDT.

(** The amount after the cap at [settings.MAX_TRADE_AMOUNT_USDT]. *)
Definition capped_amount (amount_usdt : F) : F :=
  if amount_usdt >? MAX_TRADE_AMOUNT_USDT then MAX_TRADE_AMOUNT_USDT
  else amount_usdt.

(** [execute_signal]. *)
Definition execute_signal (signal : TradingSignal) (amount_usdt : option F)
  : M (option Order) :=
  if SignalType_eqb (signal_type signal) HOLD then ret None else
  let amount_usdt := requested_amount amount_usdt in
  if amount_usdt <? MIN_TRADE_AMOUNT_USDT then ret None else
  let amount_usdt := capped_amount amount_usdt in
  match signal_type signal with
  | BUY => _execute_buy signal amount_usdt
  | SELL => _execute_sell signal
  | HOLD => ret None
  end.

End Model.

(** ** The rest of the executor, its callers and the indicator helpers *)

Section Surroundings.
Context {F : Type} `{PyFloat F}.
Local Open Scope py_scope.

Notation "x <- c ;; k" := (bind c (fun x => k))
  (at level 100, c at next level, right associativity).
Notation "c ;;; k" := (bind c (fun _ => k))
  (at level 100, right associativity).

(** *** Paper funds, [core/executor.py] *)

(** [deposit_paper_funds]. *)
Definition deposit_paper_funds (amount : F) : M unit :=
  paper <- gets (fun w => paper_mode (self w)) ;;
  if paper then
    on_self (fun e =>
      set_paper_balance
        (<["USDT" := default (flit 0) (paper_balance e !! "USDT") + amount]>
           (paper_balance e)) e) ;;;
    _save_trade_history
  else ret tt.

(** [withdraw_paper_funds]: [True], [False], or, falling off the end in
    live mode, [None]. *)
Definition withdraw_paper_funds (amount : F) : M (option bool) :=
  paper <- gets (fun w => paper_mode (self w)) ;;
  if paper then
    bal <- gets (fun w => paper_balance (self w)) ;;
    let current := default (flit 0) (bal !! "USDT") in
    if current >=? amount then
      on_self (set_paper_balance (<["USDT" := current - amount]> bal)) ;;;
      _save_trade_history ;;;
      ret (Some true)
    else ret (Some false)
  else ret None.

(** *** Queries, [core/executor.py] *)

(** [get_open_trades] and [get_closed_trades], the dictionaries of
    [to_dict] being the records themselves. *)
Definition get_open_trades (e : @OrderExecutor F) : list Trade :=
  List.filter (fun t => String.eqb (trade_status t) "open") (trades e).*2.

Definition get_closed_trades (e : @OrderExecutor F) : list Trade :=
  List.filter (fun t => String.eqb (trade_status t) "closed") (trades e).*2.

(** *** Indicator helpers, [core/indicators.py] *)

(** [max(0, x)]: the first argument stays unless the second is greater. *)
Definition max0 (x : F) : F := if x >? flit 0 then x else flit 0.

(** [calculate_dip_percent]. *)
Definition calculate_dip_percent (current_price high_price : F) : outcome F :=
  if high_price <=? flit 0 then Return (flit 0)
  else match py_div (high_price - current_price) high_price with
       | Return r => Return (max0 (r * flit 100))
       | Raise e => Raise e
       end.

(** [calculate_rise_percent]. *)
Definition calculate_rise_percent (current_price low_price : F) : outcome F :=
  if low_price <=? flit 0 then Return (flit 0)
  else match py_div (current_price - low_price) low_price with
       | Return r => Return (max0 (r * flit 100))
       | Raise e => Raise e
       end.

(** [calculate_rise_from_entry], with Python's division. *)
Definition calculate_rise_from_entry_py (current_price entry : F) : outcome F :=
  if entry <=? flit 0 then Return (flit 0)
  else match py_div (current_price - entry) entry with
       | Return r => Return (r * flit 100)
       | Raise e => Raise e
       end.

(** [calculate_volume_spike]. *)
Definition calculate_volume_spike (current_volume avg_volume : F) : outcome F :=
  if avg_volume <=? flit 0 then Return (flit 1)
  else py_div current_volume avg_volume.

(** *** Request handlers, [web/app.py] *)

(** [wallet_deposit], on the parsed amount; the result is the [success]
    flag of the response. *)
Definition wallet_deposit (amount : F) : M bool :=
  if amount >? flit 0 then deposit_paper_funds amount ;;; ret true
  else ret false.

(** [wallet_withdraw]: a result of [None] is falsy. *)
Definition wallet_withdraw (amount : F) : M bool :=
  if amount >? flit 0 then
    success <- withdraw_paper_funds amount ;;
    match success with
    | Some true => ret true
    | _ => ret false
    end
  else ret false.

(** [wallet_reset]. *)
Definition wallet_reset (amount : F) : M bool :=
  reset_paper_funds amount ;;; ret true.

(** [set_mode]: [executor.paper_mode = paper_mode]. *)
Definition set_mode (paper : bool) : @M F unit :=
  on_self (set_paper_mode paper).

(** *** Sessions *)

(** The calls [web/app.py] makes on the executor, in any order: the
    polling loop's [execute_signal] and the wallet and mode requests. *)
Inductive action :=
| Signal (sig : @TradingSignal F) (amount : option F)
| Deposit (amount : F)
| Withdraw (amount : F)
| Reset (amount : F)
| Mode (paper : bool).

(** The state a call leaves; an exception of [execute_signal] is caught by
    the polling loop and what was written stays. *)
Definition step (a : action) (w : @World F) : World :=
  match a with
  | Signal sig amount => (execute_signal sig amount w).2
  | Deposit amount => (wallet_deposit amount w).2
  | Withdraw amount => (wallet_withdraw amount w).2
  | Reset amount => (wallet_reset amount w).2
  | Mode paper => (set_mode paper w).2
  end.

Definition session (acts : list action) (w : @World F) : World :=
  fold_left (fun w a => step a w) acts w.

End Surroundings.

(** ** Vocabulary of the properties *)

Section Vocabulary.
Context {F : Type} `{PyFloat F}.
Local Open Scope py_scope.

(** The ledger file after a call that persists: the snapshot of the new
    executor state when the write goes through; a file that does not
    parse when the write fails after truncating it; the old file when it
    fails before. *)
Definition persisted (w w' : @World F) : Prop :=
  fs_writable w' = fs_writable w
  /\ fs_truncates w' = fs_truncates w
  /\ trade_log_file w' =
       if fs_writable w then
         FileJson (JObject
           {| ledger_trades := (trades (self w')).*2;
              ledger_orders := orders (self w');
              ledger_paper_balance := Some (paper_balance (self w')) |})
       else if fs_truncates w then FileUnreadable
       else trade_log_file w.

(** What a filled paper buy leaves behind, field by field. *)
Definition paper_buy_post (sym : string) (q p b : F) (w : World)
    (o : Order) (w' : World) : Prop :=
  let t :=
    {| trade_id := "TRADE-" +:+ pretty (_trade_counter (self w) + 1)%nat;
       trade_symbol := sym; trade_side := "long"; trade_quantity := q;
       entry_price := p; exit_price := flit 0; pnl := flit 0;
       pnl_percent := flit 0; entry_time := Some (clock w);
       exit_time := None; trade_is_paper := true; trade_status := "open" |} in
  o = {| order_id := "PAPER-" +:+ pretty (_order_counter (self w) + 1)%nat;
         order_symbol := sym; order_side := "buy"; order_type := "market";
         order_quantity := q; order_price := p; order_status := FILLED;
         order_timestamp := clock w; filled_price := p;
         fee := (q * p) * flit (1 # 1000); order_is_paper := true |}
  /\ paper_balance (self w') = <["USDT" := b - q * p]> (paper_balance (self w))
  /\ orders (self w') = orders (self w) ++ [o]
  /\ trades (self w') = dict_set (trade_id t) t (trades (self w))
  /\ _order_counter (self w') = (_order_counter (self w) + 1)%nat
  /\ _trade_counter (self w') = (_trade_counter (self w) + 1)%nat
  /\ paper_mode (self w') = paper_mode (self w)
  /\ exchange (self w') = exchange (self w)
  /\ strategy w' = add_position sym p q (clock w) (strategy w)
  /\ clock w' = clock w
  /\ persisted w w'.

(** What a paper sell leaves behind, field by field. *)
Definition paper_sell_post (sym : string) (q p entry b : F) (w : World)
    (o : Order) (w' : World) : Prop :=
  let proceeds := q * p in
  let cost := q * entry in
  o = {| order_id := "PAPER-" +:+ pretty (_order_counter (self w) + 1)%nat;
         order_symbol := sym; order_side := "sell"; order_type := "market";
         order_quantity := q; order_price := p; order_status := FILLED;
         order_timestamp := clock w; filled_price := p;
         fee := proceeds * flit (1 # 1000); order_is_paper := true |}
  /\ paper_balance (self w') = <["USDT" := b + proceeds]> (paper_balance (self w))
  /\ orders (self w') = orders (self w) ++ [o]
  /\ trades (self w') =
       close_first_open sym p (clock w) (proceeds - cost)
         (((proceeds - cost) / cost) * flit 100) (trades (self w))
  /\ _order_counter (self w') = (_order_counter (self w) + 1)%nat
  /\ _trade_counter (self w') = _trade_counter (self w)
  /\ paper_mode (self w') = paper_mode (self w)
  /\ exchange (self w') = exchange (self w)
  /\ strategy w' = close_position sym (strategy w)
  /\ clock w' = clock w
  /\ persisted w w'.

(** The exchange raises on the order this signal submits: the market
    buy of [amount / price] units of the symbol, or the market sell of
    the quantity of the symbol's position. *)
Definition adapter_raises (sig : @TradingSignal F) (amount : F)
    (s : @TradingStrategy F) (ex : @Exchange F) : Prop :=
  match signal_type sig with
  | BUY =>
      create_market_buy_order ex (symbol sig) (amount / price sig) = None
  | SELL =>
      match get_position (symbol sig) s with
      | Some pos =>
          create_market_sell_order ex (symbol sig) (pos_quantity pos) = None
      | None => True
      end
  | HOLD => True
  end.

(** The dispatch of [execute_signal] once the amount is settled. *)
Definition dispatch (sig : @TradingSignal F) (amount : F)
  : M (option Order) :=
  match signal_type sig with
  | BUY => _execute_buy sig amount
  | SELL => _execute_sell sig
  | HOLD => ret None
  end.

(** There is exactly one trade open for the symbol, [t] under key [k]. *)
Definition only_open_trade (sym k : string) (t : @Trade F)
    (d : list (string * @Trade F)) : Prop :=
  exists l1 l2,
    d = l1 ++ (k, t) :: l2
    /\ is_open_for sym t = true
    /\ Forall (fun kt => is_open_for sym kt.2 = false) l1
    /\ Forall (fun kt => is_open_for sym kt.2 = false) l2.

End Vocabulary.

(** ** Vocabulary of the ledger and of sessions *)

Section LedgerVocabulary.
Context {F : Type} `{PyFloat F}.
Local Open Scope py_scope.

(** The ledger file that [_save_trade_history] writes for an executor. *)
Definition snapshot (e : @OrderExecutor F) : LedgerFile :=
  FileJson (JObject {| ledger_trades := (trades e).*2;
                       ledger_orders := orders e;
                       ledger_paper_balance := Some (paper_balance e) |}).

(** The key the executor gives its [n]-th trade. *)
Definition trade_key (n : nat) : string := "TRADE-" +:+ pretty n.

(** The trades dictionary holds the trades 1 to [n] in order of creation,
    each under its own id and either open or closed. *)
Definition trades_wf (d : list (string * @Trade F)) (n : nat) : Prop :=
  d.*1 = trade_key <$> seq 1 n
  /\ Forall (fun kt => trade_id kt.2 = kt.1
                       /\ (trade_status kt.2 = "open"
                           \/ trade_status kt.2 = "closed")) d.

(** The number of trades open for a symbol. *)
Definition count_open (sym : string) (d : list (string * @Trade F)) : nat :=
  length (List.filter (fun kt => is_open_for sym kt.2) d).

(** Open trades mirror positions, and positions respect their limit. *)
Definition mirror (d : list (string * @Trade F)) (s : @TradingStrategy F)
  : Prop :=
  (forall sym, count_open sym d
               = match positions s !! sym with Some _ => 1 | None => 0 end)
  /\ size (positions s) <= MAX_OPEN_POSITIONS.

(** What a session keeps of the ledger and the position store. *)
Definition session_inv (w : @World F) : Prop :=
  trades_wf (trades (self w)) (_trade_counter (self w))
  /\ mirror (trades (self w)) (strategy w).

End LedgerVocabulary.

(** ** IEEE-754 binary64, the [float] of CPython *)

Definition float_of_Z (z : Z) : float :=
  match z with
  | Z0 => PrimFloat.zero
  | Zpos _ => PrimFloat.of_uint63 (Uint63.of_Z z)
  | Zneg p => PrimFloat.opp (PrimFloat.of_uint63 (Uint63.of_Z (Zpos p)))
  end.

(** A decimal literal [n/d] is the correctly rounded quotient, which is
    the binary64 number nearest to it. *)
Definition float_lit (q : Q) : float :=
  PrimFloat.div (float_of_Z (Qnum q)) (float_of_Z (Zpos (Qden q))).

#[export] Program Instance float_PyFloat : PyFloat float := {|
  fadd := PrimFloat.add;
  fsub := PrimFloat.sub;
  fmul := PrimFloat.mul;
  fdiv := PrimFloat.div;
  flt := PrimFloat.ltb;
  fle := PrimFloat.leb;
  feq0 x := PrimFloat.eqb x PrimFloat.zero;
  flit := float_lit
|}.
Next Obligation.
  intros x. change (float_lit 0) with PrimFloat.zero. cbv beta.
  rewrite FloatAxioms.eqb_spec, FloatAxioms.leb_spec. unfold SFeqb, SFleb.
  destruct (SFcompare (Prim2SF x) (Prim2SF PrimFloat.zero)) as [[ | | ]|];
    intros Hx; first [reflexivity | discriminate Hx].
Qed.

(** A binary64 number that is finite (neither a NaN nor an infinity) and
    not zero. *)
Definition finite_nonzero (x : float) : bool :=
  match Prim2SF x with
  | S754_finite _ _ _ => true
  | _ => false
  end.

(** ** Scenario worlds *)

(** A freshly started process: no ledger file, default triggers, no
    position. *)
Definition fresh_strategy {F} `{PyFloat F} : TradingStrategy :=
  {| buy_triggers := DEFAULT_BUY_TRIGGERS;
     sell_triggers := DEFAULT_SELL_TRIGGERS;
     positions := ∅ |}.

Definition fresh_world {F} `{PyFloat F} : World :=
  {| self := __init__ "mexc" None FileAbsent None None;
     strategy := fresh_strategy;
     trade_log_file := FileAbsent;
     fs_writable := true;
     fs_truncates := false;
     clock := 0 |}.

Definition signal_of {F} `{PyFloat F} (ty : SignalType) (sym : string) (p : F)
  : TradingSignal :=
  {| signal_type := ty; symbol := sym; price := p; reasons := [] |}.

Section ScenarioWorlds.
Local Open Scope py_scope.

(** The freshly started process in binary64. *)
Definition fresh64 : @World float := fresh_world.

(** The spec's first scenario: 100 USDT of X bought at 10 after a fresh
    start, then sold back at the same price. *)
Definition bought : outcome (option Order) * @World float :=
  execute_signal (signal_of BUY "X" (flit 10)) (Some (flit 100)) fresh64.

Definition sold_back : outcome (option Order) * @World float :=
  execute_signal (signal_of SELL "X" (flit 10)) None bought.2.

(** A BUY of X at 10 asking for an amount of 0. *)
Definition zero_amount_buy : outcome (option Order) * @World float :=
  execute_signal (signal_of BUY "X" (flit 10)) (Some (flit 0)) fresh64.

(** The paper balance reset to 5 USDT. *)
Definition poor_world : @World float :=
  (reset_paper_funds (flit 5) fresh64).2.

(** An exchange whose every order submission raises, and a live executor
    built over it. *)
Definition failing_exchange : @Exchange float :=
  {| create_market_buy_order := fun _ _ => None;
     create_market_sell_order := fun _ _ => None |}.

Definition live_world : @World float :=
  set_self
    (__init__ "mexc" (Some (fun _ => Some failing_exchange)) FileAbsent None
       (Some false))
    fresh64.

(** An exchange that raises on every order of 5 units or more and fills
    the others, and a live executor built over it. *)
Definition picky_exchange : @Exchange float :=
  {| create_market_buy_order := fun _ q =>
       if q <? flit 5 then
         Some {| r_id := Some "abc"; r_status := Some "closed";
                 r_average := None; r_fee := None |}
       else None;
     create_market_sell_order := fun _ q =>
       if q <? flit 5 then
         Some {| r_id := Some "abc"; r_status := Some "closed";
                 r_average := None; r_fee := None |}
       else None |}.

Definition picky_world : @World float :=
  set_self
    (__init__ "mexc" (Some (fun _ => Some picky_exchange)) FileAbsent None
       (Some false))
    fresh64.

(** A snapshot that meets the RSI and dip conditions of the default
    triggers but not the volume one. *)
Definition two_of_three : @Indicators float :=
  {| ind_price := flit 10; ind_rsi := flit 25; ind_dip_percent := flit 6;
     ind_volume_spike := flit 1 |}.

End ScenarioWorlds.

(** *** Further scenario worlds *)

Section MoreScenarioWorlds.
Local Open Scope py_scope.

(** An exchange that fills every market order at 10.5 for a fee of 0.01,
    and one whose answers carry neither [id] nor [fee]. *)
Definition filled_result : @OrderResult float :=
  {| r_id := Some "abc"; r_status := Some "closed";
     r_average := Some (flit (21 # 2));
     r_fee := Some (FeeDict (Some (flit (1 # 100)))) |}.

Definition answering_exchange : @Exchange float :=
  {| create_market_buy_order := fun _ _ => Some filled_result;
     create_market_sell_order := fun _ _ => Some filled_result |}.

Definition mute_result : @OrderResult float :=
  {| r_id := None; r_status := Some "closed"; r_average := None;
     r_fee := None |}.

Definition mute_exchange : @Exchange float :=
  {| create_market_buy_order := fun _ _ => Some mute_result;
     create_market_sell_order := fun _ _ => Some mute_result |}.

(** A live executor over a given exchange. *)
Definition live_over (ex : @Exchange float) : @World float :=
  set_self
    (__init__ "mexc" (Some (fun _ => Some ex)) FileAbsent None (Some false))
    fresh64.

(** A process restarted over a ledger file whose [paper_balance] is the
    empty object, holding a position of 10 X entered at 10; and a live
    executor over the answering exchange, holding a position of quantity
    0. *)
Definition stranded_world : @World float :=
  {| self :=
       __init__ "mexc" None
         (FileJson (JObject {| ledger_trades := []; ledger_orders := [];
                               ledger_paper_balance := Some ∅ |}))
         None None;
     strategy := add_position "X" (flit 10) (flit 10) 0 fresh_strategy;
     trade_log_file := FileAbsent;
     fs_writable := true;
     fs_truncates := false;
     clock := 0 |}.

Definition empty_position_world : @World float :=
  set_strategy (add_position "X" (flit 10) (flit 0) 0 fresh_strategy)
    (live_over answering_exchange).

(** A day of calls: two buys, a deposit, a sell, a switch to live mode
    (without exchange), a signal there, a switch back, a withdrawal and
    a third buy. *)
Definition busy_day : list (@action float) :=
  [ Signal (signal_of BUY "X" (flit 10)) (Some (flit 100));
    Deposit (flit 50);
    Signal (signal_of BUY "Y" (flit 20)) None;
    Signal (signal_of SELL "X" (flit 11)) None;
    Mode false;
    Signal (signal_of BUY "Z" (flit 5)) None;
    Mode true;
    Withdraw (flit 20);
    Signal (signal_of BUY "Z" (flit 5)) (Some (flit 5000)) ].

End MoreScenarioWorlds.

(** ** Running the executor symbolically *)

(** Unfolds the monad and the field updates, leaving arithmetic and
    dictionary operations folded; meant for worlds given field by field
    (see [open_world]). *)
Ltac run :=
  cbv beta iota zeta delta
    [bind ret raise lift gets modify try_except on_self on_strategy
     datetime_now set_self set_strategy set_trade_log_file
     set_paper_mode set_exchange set_orders set_trades
     set__order_counter set__trade_counter set_paper_balance
     self strategy trade_log_file fs_writable fs_truncates clock
     exchange_name paper_mode exchange orders trades
     _order_counter _trade_counter paper_balance
     _save_trade_history get_trade_history get_order_history
     result_key exchange_call from_option id fst snd].

Ltac run_in_all :=
  cbv beta iota zeta delta
    [self strategy trade_log_file fs_writable fs_truncates clock
     exchange_name paper_mode exchange orders trades
     _order_counter _trade_counter paper_balance] in *.

(** Replaces a world by its fields. *)
Ltac open_world w :=
  destruct w as [[? ? ? ? ? ? ? ?] ? ? ? ? ?]; run_in_all.

Section Runs.
Context {F : Type} `{PyFloat F}.
Local Open Scope py_scope.

Lemma py_div_guarded (x y : F) :
  (y <=? flit 0) = false -> py_div x y = Return (x / y).
Proof.
  intros Hy. unfold py_div.
  destruct (feq0 y) eqn:E; [|reflexivity].
  apply feq0_fle in E. congruence.
Qed.

Ltac split_post :=
  unfold paper_buy_post, paper_sell_post, persisted; run;
  repeat split; reflexivity.

Lemma paper_buy_run (sym : string) (q p b : F) (sig : TradingSignal) (w : World) :
  paper_balance (self w) !! "USDT" = Some b ->
  (b <? q * p) = false ->
  exists o w', _paper_buy sym q p sig w = (Return (Some o), w')
               /\ paper_buy_post sym q p b w o w'.
Proof.
  intros Hb Hlt. open_world w. unfold _paper_buy, subscript. run.
  rewrite Hb. run. rewrite Hlt.
  repeat match goal with
         | |- context [if ?fw then _ else _] => destruct fw
         end;
    (eexists; eexists; split; [reflexivity|]); split_post.
Qed.

Lemma paper_sell_run (sym : string) (q p entry b : F) (sig : TradingSignal)
    (w : World) :
  feq0 (q * entry) = false ->
  paper_balance (self w) !! "USDT" = Some b ->
  exists o w', _paper_sell sym q p entry sig w = (Return (Some o), w')
               /\ paper_sell_post sym q p entry b w o w'.
Proof.
  intros Hc Hb. open_world w. unfold _paper_sell, subscript, py_div. run.
  rewrite Hc. run. rewrite Hb.
  repeat match goal with
         | |- context [if ?fw then _ else _] => destruct fw
         end;
    (eexists; eexists; split; [reflexivity|]); split_post.
Qed.

(** The rejection branch of [_paper_buy]. *)
Lemma paper_buy_insufficient (sym : string) (q p : F) (sig : TradingSignal)
    (w : World) :
  (default (flit 0) (paper_balance (self w) !! "USDT") <? q * p) = true ->
  _paper_buy sym q p sig w = (Return None, w).
Proof.
  intros Hlt. unfold _paper_buy.
  cbv beta iota zeta delta [bind gets ret]. rewrite Hlt. reflexivity.
Qed.

(** *** The trades dictionary *)

Lemma close_first_open_none (sym : string) (xp : F) (now : datetime) (p pp : F)
    (d : list (string * Trade)) :
  Forall (fun kt => is_open_for sym kt.2 = false) d ->
  close_first_open sym xp now p pp d = d.
Proof.
  induction 1 as [|[k t] d Hkt _ IH]; [reflexivity|].
  cbn [close_first_open]. cbn in Hkt. rewrite Hkt, IH. reflexivity.
Qed.

Lemma close_first_open_split (sym : string) (xp : F) (now : datetime)
    (p pp : F) (l1 l2 : list (string * Trade)) (k : string) (t : Trade) :
  Forall (fun kt => is_open_for sym kt.2 = false) l1 ->
  is_open_for sym t = true ->
  close_first_open sym xp now p pp (l1 ++ (k, t) :: l2)
  = l1 ++ (k, close_trade t xp now p pp) :: l2.
Proof.
  intros Hl1 Ht. induction Hl1 as [|[k' t'] l1 Hkt _ IH].
  - cbn [app close_first_open]. rewrite Ht. reflexivity.
  - cbn [app close_first_open]. cbn in Hkt. rewrite Hkt, IH. reflexivity.
Qed.

(** Storing a trade under a key splits the dictionary around it. *)
Lemma dict_set_split (k : string) (t : @Trade F)
    (d : list (string * @Trade F)) (P : string * @Trade F -> Prop) :
  Forall P d ->
  exists l1 l2, dict_set k t d = l1 ++ (k, t) :: l2
                /\ Forall P l1 /\ Forall P l2.
Proof.
  induction 1 as [|[k' t'] d Hkt Hd IH].
  - exists [], []. repeat split; constructor.
  - cbn [dict_set]. destruct (String.eqb k' k) eqn:E.
    + apply String.eqb_eq in E. subst k'.
      exists [], d. repeat split; [constructor | exact Hd].
    + destruct IH as (l1 & l2 & -> & H1 & H2).
      exists ((k', t') :: l1), l2. repeat split; [|exact H2].
      constructor; assumption.
Qed.

(** *** [execute_signal] on its two filling paper paths *)

Lemma execute_buy_paper_run (sig : TradingSignal) (amt : option F) (a b : F)
    (w : World) :
  signal_type sig = BUY ->
  paper_mode (self w) = true ->
  (requested_amount amt <? MIN_TRADE_AMOUNT_USDT) = false ->
  capped_amount (requested_amount amt) = a ->
  (price sig <=? flit 0) = false ->
  can_open_position (symbol sig) (strategy w) = true ->
  paper_balance (self w) !! "USDT" = Some b ->
  (b <? (a / price sig) * price sig) = false ->
  exists o w',
    execute_signal sig amt w = (Return (Some o), w')
    /\ paper_buy_post (symbol sig) (a / price sig) (price sig) b w o w'.
Proof.
  intros Hty Hpaper Hmin Hcap Hp Hcan Hb Hlt.
  unfold execute_signal. rewrite Hty. cbn [SignalType_eqb].
  rewrite Hmin, Hcap. unfold _execute_buy. rewrite Hp.
  cbv beta iota delta [bind lift gets]. rewrite (py_div_guarded _ _ Hp).
  rewrite Hcan. cbn [negb]. rewrite Hpaper.
  apply paper_buy_run; assumption.
Qed.

Lemma execute_sell_paper_run (sig : TradingSignal) (amt : option F) (b : F)
    (pos : Position) (w : World) :
  signal_type sig = SELL ->
  paper_mode (self w) = true ->
  (requested_amount amt <? MIN_TRADE_AMOUNT_USDT) = false ->
  get_position (symbol sig) (strategy w) = Some pos ->
  paper_balance (self w) !! "USDT" = Some b ->
  feq0 (pos_quantity pos * pos_entry_price pos) = false ->
  exists o w',
    execute_signal sig amt w = (Return (Some o), w')
    /\ paper_sell_post (symbol sig) (pos_quantity pos) (price sig)
         (pos_entry_price pos) b w o w'.
Proof.
  intros Hty Hpaper Hmin Hpos Hb Hcost.
  unfold execute_signal. rewrite Hty. cbn [SignalType_eqb].
  rewrite Hmin. unfold _execute_sell. cbv beta iota delta [bind gets].
  rewrite Hpos, Hpaper. apply paper_sell_run; assumption.
Qed.

End Runs.

(** ** Properties that do not depend on the arithmetic *)

Section Claims.
Context {F : Type} `{PyFloat F}.
Local Open Scope py_scope.

Lemma live_buy_adapter_failure (sym : string) (q p : F) (sig : TradingSignal)
    (w : World) :
  (forall ex, exchange (self w) = Some ex ->
              create_market_buy_order ex sym q = None) ->
  _live_buy sym q p sig w = (Return None, w).
Proof.
  intros Hex. unfold _live_buy. cbv beta iota delta [bind gets].
  destruct (exchange (self w)) as [ex|] eqn:E; [|reflexivity].
  cbv beta iota delta [try_except bind lift exchange_call ret].
  rewrite (Hex ex eq_refl). reflexivity.
Qed.

Lemma live_sell_adapter_failure (sym : string) (q p entry : F)
    (sig : TradingSignal) (w : World) :
  (forall ex, exchange (self w) = Some ex ->
              create_market_sell_order ex sym q = None) ->
  _live_sell sym q p entry sig w = (Return None, w).
Proof.
  intros Hex. unfold _live_sell. cbv beta iota delta [bind gets].
  destruct (exchange (self w)) as [ex|] eqn:E; [|reflexivity].
  cbv beta iota delta [try_except bind lift exchange_call ret].
  rewrite (Hex ex eq_refl). reflexivity.
Qed.

(** C6: in paper mode a BUY signal whose price is not positive, or for
    which [can_open_position] is false, or whose cost
    [(amount / price) * price] exceeds the paper USDT balance, makes
    [execute_signal] return nothing and leaves the whole process state
    (orders, trades, balance, position store, ledger file) as it was. *)
Theorem buy_rejection_is_atomic (sig : TradingSignal) (amt : option F)
    (w : @World F) :
  signal_type sig = BUY ->
  paper_mode (self w) = true ->
  (price sig <=? flit 0) = true
  \/ can_open_position (symbol sig) (strategy w) = false
  \/ (default (flit 0) (paper_balance (self w) !! "USDT")
      <? (capped_amount (requested_amount amt) / price sig) * price sig) = true ->
  execute_signal sig amt w = (Return None, w).
Proof.
  intros Hty Hpaper Hrej. unfold execute_signal. rewrite Hty.
  cbn [SignalType_eqb].
  destruct (requested_amount amt <? MIN_TRADE_AMOUNT_USDT); [reflexivity|].
  unfold _execute_buy.
  destruct (price sig <=? flit 0) eqn:Hp; [reflexivity|].
  cbv beta iota delta [bind lift gets]. rewrite (py_div_guarded _ _ Hp).
  destruct Hrej as [Hp' | [Hc | Hb]].
  - congruence.
  - rewrite Hc. reflexivity.
  - destruct (can_open_position (symbol sig) (strategy w)); [|reflexivity].
    cbn [negb]. rewrite Hpaper. apply paper_buy_insufficient, Hb.
Qed.

(** C8: in live mode, when the exchange raises on the order a BUY or SELL
    signal submits (the market buy of the settled amount over the price,
    the market sell of the position's quantity), [execute_signal] returns
    nothing and the process state, the orders list, the trades map and
    the position store among it, is exactly what it was before the
    call. *)
Theorem live_adapter_failure_commits_nothing (sig : TradingSignal)
    (amt : option F) (w : @World F) :
  paper_mode (self w) = false ->
  (forall ex, exchange (self w) = Some ex ->
     adapter_raises sig (capped_amount (requested_amount amt)) (strategy w)
       ex) ->
  execute_signal sig amt w = (Return None, w).
Proof.
  intros Hlive Hex. unfold execute_signal, adapter_raises in *.
  destruct (signal_type sig) eqn:Hty; cbn [SignalType_eqb]; [| |reflexivity];
    (destruct (requested_amount amt <? MIN_TRADE_AMOUNT_USDT); [reflexivity|]).
  - unfold _execute_buy.
    destruct (price sig <=? flit 0) eqn:Hp; [reflexivity|].
    cbv beta iota delta [bind lift gets]. rewrite (py_div_guarded _ _ Hp).
    destruct (can_open_position (symbol sig) (strategy w)); [|reflexivity].
    cbn [negb]. rewrite Hlive. apply live_buy_adapter_failure.
    intros ex Hx. apply (Hex ex Hx).
  - unfold _execute_sell. cbv beta iota delta [bind gets].
    destruct (get_position (symbol sig) (strategy w)) as [pos|]; [|reflexivity].
    rewrite Hlive. apply live_sell_adapter_failure.
    intros ex Hx. apply (Hex ex Hx).
Qed.

(** C9: constructing the executor over a ledger file that exists and
    parses restores the paper balance from it (the starting balance when
    the file has no such field) and nothing else: the orders list and the
    trades map are empty and both counters are 0, whatever trades and
    orders the file holds. *)
Theorem init_restores_only_paper_balance (DEFAULT_EXCHANGE : string)
    (ccxt : option (string -> option (@Exchange F)))
    (name : option string) (mode : option bool) (data : @LedgerData F) :
  let e := __init__ DEFAULT_EXCHANGE ccxt (FileJson (JObject data)) name mode in
  orders e = []
  /\ trades e = []
  /\ _order_counter e = 0%nat
  /\ _trade_counter e = 0%nat
  /\ paper_balance e
     = default initial_paper_balance (ledger_paper_balance data).
Proof.
  unfold __init__, _init_exchange, PAPER_TRADING.
  destruct mode as [[|]|]; cbn [default from_option id negb paper_mode];
    try (repeat split; reflexivity).
  destruct ccxt as [lib|]; [|repeat split; reflexivity].
  cbn [exchange_name].
  match goal with |- context [lib ?n] => destruct (lib n) end;
    repeat split; reflexivity.
Qed.

(** C5: for a SELL signal, when the position store has no position for
    the symbol, [execute_signal] returns nothing and changes no state.
    When it has one (and the call is in paper mode, past the amount
    validation, over a balance that has a USDT entry and a position of
    non-zero cost), it credits the balance by
    [proceeds = quantity * price], appends a filled sell order with
    [fee = proceeds * 0.001], removes the position, and closes the first
    open trade of the symbol: [exit_price], [exit_time],
    [pnl = proceeds - quantity * entry_price],
    [pnl_percent = pnl / cost * 100] and [status = closed] are set and
    the other fields and trades are kept. *)
Theorem sell_path (sig : TradingSignal) (amt : option F) (w : @World F) :
  signal_type sig = SELL ->
  (get_position (symbol sig) (strategy w) = None ->
   execute_signal sig amt w = (Return None, w))
  /\ (forall pos b,
        get_position (symbol sig) (strategy w) = Some pos ->
        paper_mode (self w) = true ->
        (requested_amount amt <? MIN_TRADE_AMOUNT_USDT) = false ->
        paper_balance (self w) !! "USDT" = Some b ->
        feq0 (pos_quantity pos * pos_entry_price pos) = false ->
        let proceeds := pos_quantity pos * price sig in
        let cost := pos_quantity pos * pos_entry_price pos in
        exists o w',
          execute_signal sig amt w = (Return (Some o), w')
          /\ paper_balance (self w')
             = <["USDT" := b + proceeds]> (paper_balance (self w))
          /\ orders (self w') = orders (self w) ++ [o]
          /\ order_symbol o = symbol sig
          /\ order_side o = "sell"
          /\ order_quantity o = pos_quantity pos
          /\ filled_price o = price sig
          /\ order_status o = FILLED
          /\ fee o = proceeds * flit (1 # 1000)
          /\ positions (strategy w')
             = delete (symbol sig) (positions (strategy w))
          /\ get_position (symbol sig) (strategy w') = None
          /\ (Forall (fun kt => is_open_for (symbol sig) kt.2 = false)
                (trades (self w)) ->
              trades (self w') = trades (self w))
          /\ (forall l1 k t l2,
                trades (self w) = l1 ++ (k, t) :: l2 ->
                Forall (fun kt => is_open_for (symbol sig) kt.2 = false) l1 ->
                is_open_for (symbol sig) t = true ->
                exists t',
                  trades (self w') = l1 ++ (k, t') :: l2
                  /\ exit_price t' = price sig
                  /\ exit_time t' = Some (clock w)
                  /\ pnl t' = proceeds - cost
                  /\ pnl_percent t' = ((proceeds - cost) / cost) * flit 100
                  /\ trade_status t' = "closed"
                  /\ trade_id t' = trade_id t
                  /\ trade_symbol t' = trade_symbol t
                  /\ trade_side t' = trade_side t
                  /\ trade_quantity t' = trade_quantity t
                  /\ entry_price t' = entry_price t
                  /\ entry_time t' = entry_time t
                  /\ trade_is_paper t' = trade_is_paper t)).
Proof.
  intros Hty. unfold execute_signal. rewrite Hty. cbn [SignalType_eqb]. split.
  - intros Hnone.
    destruct (requested_amount amt <? MIN_TRADE_AMOUNT_USDT); [reflexivity|].
    unfold _execute_sell. cbv beta iota delta [bind gets].
    rewrite Hnone. reflexivity.
  - intros pos b Hpos Hpaper Hamt Hb Hcost. rewrite Hamt.
    unfold _execute_sell. cbv beta iota delta [bind gets].
    rewrite Hpos, Hpaper.
    destruct (paper_sell_run (symbol sig) (pos_quantity pos) (price sig)
                (pos_entry_price pos) b sig w Hcost Hb)
      as (o & w' & Hrun & Ho & Hbal & Hord & Htr & _ & _ & _ & _ & Hst & _).
    exists o, w'. split; [exact Hrun|]. split; [exact Hbal|].
    split; [exact Hord|]. subst o. cbn [order_symbol order_side order_quantity
      filled_price order_status fee].
    do 6 (split; [reflexivity|]).
    rewrite Hst, Htr. unfold get_position, close_position.
    cbn [positions set_positions].
    split; [reflexivity|]. split; [apply lookup_delete_eq|]. split.
    + intros Hnone. apply close_first_open_none, Hnone.
    + intros l1 k t l2 Hsplit Hl1 Ht. rewrite Hsplit.
      eexists. split; [apply close_first_open_split; assumption|].
      cbn. repeat split; reflexivity.
Qed.

(** C2 (on the strategy engine as the specification describes it):
    [evaluate] emits BUY exactly when buy triggers are enabled, the
    symbol has no open position, fewer positions are open than the
    maximum, and the three conditions [rsi <= rsi_below],
    [dip_percent >= threshold], [volume_spike >= threshold] all hold.
    With no open position for the symbol, a snapshot that misses any of
    the three (so one that meets only two) yields HOLD with no reasons. *)
Theorem evaluate_buy_iff (sym : string) (i : @Indicators F)
    (s : @TradingStrategy F) :
  (signal_type (evaluate sym i s) = BUY <->
     buy_enabled (buy_triggers s) = true
     /\ get_position sym s = None
     /\ (size (positions s) < MAX_OPEN_POSITIONS)%nat
     /\ (ind_rsi i <=? rsi_below (buy_triggers s)) = true
     /\ (ind_dip_percent i >=? dip_percent (buy_triggers s)) = true
     /\ (ind_volume_spike i >=? volume_spike (buy_triggers s)) = true)
  /\ (get_position sym s = None ->
      (ind_rsi i <=? rsi_below (buy_triggers s))
      && (ind_dip_percent i >=? dip_percent (buy_triggers s))
      && (ind_volume_spike i >=? volume_spike (buy_triggers s)) = false ->
      signal_type (evaluate sym i s) = HOLD
      /\ reasons (evaluate sym i s) = []).
Proof.
  unfold evaluate, can_open_position, get_position.
  destruct (positions s !! sym) as [pos|] eqn:Hpos.
  - split; [split|].
    + destruct (sell_enabled (sell_triggers s)); [destruct (existsb _ _)|];
        discriminate.
    + intros (_ & Hn & _). discriminate Hn.
    + intros Hn. discriminate Hn.
  - unfold buy_conditions. cbn [forallb fst].
    assert (Hcoin : bool_decide (0 < MAX_POSITION_PER_COIN)%nat = true)
      by (apply bool_decide_eq_true_2; unfold MAX_POSITION_PER_COIN; lia).
    rewrite Hcoin, andb_true_r. clear Hcoin.
    destruct (buy_enabled (buy_triggers s)); cbn [andb];
      [|split; [split; [discriminate | intros (Hf & _); discriminate Hf]
               | intros _ _; split; reflexivity]].
    case_bool_decide as Hsz;
      [|split; [split; [discriminate | intros (_ & _ & Hlt & _); exfalso; exact (Hsz Hlt)]
               | intros _ _; split; reflexivity]].
    destruct (ind_rsi i <=? rsi_below (buy_triggers s));
      destruct (ind_dip_percent i >=? dip_percent (buy_triggers s));
      destruct (ind_volume_spike i >=? volume_spike (buy_triggers s));
      cbn [andb signal_type reasons];
      (split;
       [split;
        [first [discriminate | intros _; repeat split; assumption]
        |first [reflexivity
               | intros (_ & _ & _ & H1 & H2 & H3);
                 first [discriminate H1 | discriminate H2 | discriminate H3]]]
       |intros _ Hc; first [discriminate Hc | split; reflexivity]]).
Qed.

End Claims.

(** ** Runs in binary64 *)

Section Binary64.
Local Open Scope py_scope.

(** The amount bounds of [settings] as binary64 comparisons. *)
Lemma default_amount_within_bounds :
  feq0 (DEFAULT_TRADE_AMOUNT_USDT : float) = false
  /\ ((DEFAULT_TRADE_AMOUNT_USDT : float) <? MIN_TRADE_AMOUNT_USDT) = false
  /\ ((DEFAULT_TRADE_AMOUNT_USDT : float) >? MAX_TRADE_AMOUNT_USDT) = false.
Proof. repeat split; vm_compute; reflexivity. Qed.

Lemma max_amount_within_bounds :
  feq0 (MAX_TRADE_AMOUNT_USDT : float) = false
  /\ ((MAX_TRADE_AMOUNT_USDT : float) <? MIN_TRADE_AMOUNT_USDT) = false
  /\ ((MAX_TRADE_AMOUNT_USDT : float) >? MAX_TRADE_AMOUNT_USDT) = false.
Proof. repeat split; vm_compute; reflexivity. Qed.

(** A binary64 number above the maximum is neither zero nor below the
    minimum. *)
Lemma float_above_max (a : float) :
  (a >? MAX_TRADE_AMOUNT_USDT) = true ->
  feq0 a = false /\ (a <? MIN_TRADE_AMOUNT_USDT) = false.
Proof.
  cbn [flt feq0 float_PyFloat].
  rewrite !FloatAxioms.ltb_spec, FloatAxioms.eqb_spec.
  let c := eval vm_compute in (Prim2SF (MAX_TRADE_AMOUNT_USDT (F:=float))) in
    change (Prim2SF MAX_TRADE_AMOUNT_USDT) with c.
  let c := eval vm_compute in (Prim2SF (MIN_TRADE_AMOUNT_USDT (F:=float))) in
    change (Prim2SF MIN_TRADE_AMOUNT_USDT) with c.
  let c := eval vm_compute in (Prim2SF PrimFloat.zero) in
    change (Prim2SF PrimFloat.zero) with c.
  unfold SFltb, SFeqb, SFcompare.
  destruct (Prim2SF a) as [s|s| |s m e]; try destruct s;
    try discriminate; try (intros _; split; reflexivity).
  destruct (Z.compare_spec (-43) e) as [He|He|He];
    try discriminate; intros Hm; (split; [reflexivity|]).
  - subst e. reflexivity.
  - destruct (Z.compare_spec e (-49)) as [He'|He'|He'];
      first [reflexivity | exfalso; lia].
Qed.

(** C7, amended: for a signal that is not HOLD, a requested amount that is
    not zero and strictly below the minimum makes [execute_signal] return
    no order and leave the process state (balance and positions among it)
    unchanged; an amount strictly above the maximum is not rejected: the
    call runs exactly as with the maximum itself, which is dispatched to
    the buy or sell path. *)
Theorem amount_validation (sig : @TradingSignal float) (a : float)
    (w : @World float) :
  signal_type sig <> HOLD ->
  (feq0 a = false ->
   (a <? MIN_TRADE_AMOUNT_USDT) = true ->
   execute_signal sig (Some a) w = (Return None, w))
  /\ ((a >? MAX_TRADE_AMOUNT_USDT) = true ->
      execute_signal sig (Some a) w
      = execute_signal sig (Some MAX_TRADE_AMOUNT_USDT) w
      /\ execute_signal sig (Some MAX_TRADE_AMOUNT_USDT) w
         = dispatch sig MAX_TRADE_AMOUNT_USDT w).
Proof.
  intros Hty. split.
  - intros Hnz Hlt. unfold execute_signal, requested_amount, py_or.
    rewrite Hnz, Hlt. destruct (signal_type sig); reflexivity.
  - intros Hgt. destruct (float_above_max a Hgt) as [Hnz Hmin].
    destruct max_amount_within_bounds as (Hnz' & Hmin' & Hgt').
    unfold execute_signal, requested_amount, py_or, capped_amount, dispatch.
    rewrite Hnz, Hmin, Hgt, Hnz'. cbv iota. rewrite Hmin', Hgt'.
    destruct (signal_type sig); [split; reflexivity ..|contradiction].
Qed.

(** C10: a requested amount of exactly zero, or no amount at all, is
    replaced by [DEFAULT_TRADE_AMOUNT_USDT], which lies within the
    bounds, so the call is not rejected as below the minimum and a
    signal that is not HOLD is dispatched with the default amount. *)
Theorem zero_or_missing_amount_defaults (sig : @TradingSignal float)
    (amt : option float) (w : @World float) :
  signal_type sig <> HOLD ->
  match amt with Some a => feq0 a = true | None => True end ->
  requested_amount amt = DEFAULT_TRADE_AMOUNT_USDT
  /\ ((DEFAULT_TRADE_AMOUNT_USDT : float) <? MIN_TRADE_AMOUNT_USDT) = false
  /\ ((DEFAULT_TRADE_AMOUNT_USDT : float) >? MAX_TRADE_AMOUNT_USDT) = false
  /\ execute_signal sig amt w = dispatch sig DEFAULT_TRADE_AMOUNT_USDT w.
Proof.
  intros Hty Hamt.
  destruct default_amount_within_bounds as (_ & Hmin & Hmax).
  assert (Hreq : requested_amount amt = DEFAULT_TRADE_AMOUNT_USDT).
  { unfold requested_amount, py_or. destruct amt as [a|]; [|reflexivity].
    rewrite Hamt. reflexivity. }
  repeat split; try assumption.
  unfold execute_signal, capped_amount, dispatch. rewrite Hreq, Hmin, Hmax.
  destruct (signal_type sig); first [reflexivity | contradiction].
Qed.

(** C3: in paper mode, from a USDT balance of 10000 and a symbol for which
    a position can be opened (none is open, and no trade is open for it),
    a BUY at price 10 with amount 100 returns a filled order with fee 0.1
    for quantity 10, leaves the balance at exactly 9900 (the fee is not
    debited), and leaves exactly one open trade for the symbol, with
    entry price 10 and quantity 10. *)
Theorem paper_buy_scenario (sym : string) (rs : list string)
    (w : @World float) :
  paper_mode (self w) = true ->
  paper_balance (self w) !! "USDT" = Some (flit 10000) ->
  can_open_position sym (strategy w) = true ->
  Forall (fun kt => is_open_for sym kt.2 = false) (trades (self w)) ->
  exists o w' k t,
    execute_signal
      {| signal_type := BUY; symbol := sym; price := flit 10; reasons := rs |}
      (Some (flit 100)) w = (Return (Some o), w')
    /\ paper_balance (self w') !! "USDT" = Some (flit 9900)
    /\ orders (self w') = orders (self w) ++ [o]
    /\ order_side o = "buy"
    /\ order_status o = FILLED
    /\ order_quantity o = flit 10
    /\ filled_price o = flit 10
    /\ fee o = flit (1 # 10)
    /\ only_open_trade sym k t (trades (self w'))
    /\ entry_price t = flit 10
    /\ trade_quantity t = flit 10
    /\ trade_status t = "open"
    /\ (exists pos, get_position sym (strategy w') = Some pos
                    /\ pos_entry_price pos = flit 10
                    /\ pos_quantity pos = flit 10).
Proof.
  intros Hpaper Hb Hcan Hnone.
  set (sig := {| signal_type := BUY; symbol := sym; price := flit 10;
                 reasons := rs |}).
  destruct (execute_buy_paper_run sig (Some (flit 100)) (flit 100)
              (flit 10000) w)
    as (o & w' & Hrun & Ho & Hbal & Hord & Htr & _ & _ & _ & _ & Hst & _);
    [reflexivity | exact Hpaper | vm_compute; reflexivity
    | vm_compute; reflexivity | vm_compute; reflexivity | exact Hcan
    | exact Hb | vm_compute; reflexivity |].
  subst sig. cbn [symbol price] in *.
  assert (Hq : fdiv (flit 100) (flit 10) = (flit 10 : float))
    by (vm_compute; reflexivity).
  rewrite Hq in *. clear Hq.
  destruct (dict_set_split
              ("TRADE-" +:+ pretty (_trade_counter (self w) + 1)%nat)
              {| trade_id := "TRADE-" +:+ pretty (_trade_counter (self w) + 1)%nat;
                 trade_symbol := sym; trade_side := "long";
                 trade_quantity := flit 10; entry_price := flit 10;
                 exit_price := flit 0; pnl := flit 0; pnl_percent := flit 0;
                 entry_time := Some (clock w); exit_time := None;
                 trade_is_paper := true; trade_status := "open" |}
              (trades (self w)) _ Hnone) as (l1 & l2 & Hsplit & Hl1 & Hl2).
  eexists o, w', _, _. split; [exact Hrun|].
  split; [rewrite Hbal, lookup_insert_eq; f_equal; vm_compute; reflexivity|].
  split; [exact Hord|]. subst o.
  cbn [order_side order_status order_quantity filled_price fee].
  do 4 (split; [reflexivity|]).
  split; [vm_compute; reflexivity|].
  split.
  { exists l1, l2. rewrite Htr. cbn [trade_id]. split; [exact Hsplit|].
    split; [|split; assumption].
    unfold is_open_for. cbn [trade_symbol trade_status].
    rewrite String.eqb_refl. reflexivity. }
  cbn [entry_price trade_quantity trade_status].
  do 3 (split; [reflexivity|]).
  eexists. rewrite Hst. unfold get_position, add_position.
  cbn [positions set_positions]. rewrite lookup_insert_eq.
  split; [reflexivity|]. split; reflexivity.
Qed.

(** C4: in paper mode, from a USDT balance of 9900 and an open position
    of quantity 10 entered at price 10, a SELL at price 11 returns a
    filled order with proceeds 110 and fee 0.11, credits the balance to
    exactly 10010, removes the position, and closes the symbol's first
    open trade with pnl 10 and pnl_percent 10.0. *)
Theorem paper_sell_scenario (sym : string) (rs : list string)
    (pos : @Position float) (l1 l2 : list (string * @Trade float))
    (k : string) (t : @Trade float) (w : @World float) :
  paper_mode (self w) = true ->
  paper_balance (self w) !! "USDT" = Some (flit 9900) ->
  get_position sym (strategy w) = Some pos ->
  pos_quantity pos = flit 10 ->
  pos_entry_price pos = flit 10 ->
  trades (self w) = l1 ++ (k, t) :: l2 ->
  Forall (fun kt => is_open_for sym kt.2 = false) l1 ->
  is_open_for sym t = true ->
  exists o w' t',
    execute_signal
      {| signal_type := SELL; symbol := sym; price := flit 11; reasons := rs |}
      None w = (Return (Some o), w')
    /\ paper_balance (self w') !! "USDT" = Some (flit 10010)
    /\ orders (self w') = orders (self w) ++ [o]
    /\ order_side o = "sell"
    /\ order_status o = FILLED
    /\ order_quantity o = flit 10
    /\ filled_price o = flit 11
    /\ fmul (order_quantity o) (filled_price o) = flit 110
    /\ fee o = flit (11 # 100)
    /\ trades (self w') = l1 ++ (k, t') :: l2
    /\ pnl t' = flit 10
    /\ pnl_percent t' = flit 10
    /\ exit_price t' = flit 11
    /\ entry_price t' = entry_price t
    /\ trade_status t' = "closed"
    /\ get_position sym (strategy w') = None.
Proof.
  intros Hpaper Hb Hpos Hq He Hsplit Hl1 Ht.
  set (sig := {| signal_type := SELL; symbol := sym; price := flit 11;
                 reasons := rs |}).
  destruct (execute_sell_paper_run sig None (flit 9900) pos w)
    as (o & w' & Hrun & Ho & Hbal & Hord & Htr & _ & _ & _ & _ & Hst & _);
    [reflexivity | exact Hpaper | vm_compute; reflexivity | exact Hpos
    | exact Hb | rewrite Hq, He; vm_compute; reflexivity |].
  subst sig. cbn [symbol price] in *. rewrite Hq, He in *.
  exists o, w', (close_trade t (flit 11) (clock w) (flit 10) (flit 10)).
  split; [exact Hrun|].
  split; [rewrite Hbal, lookup_insert_eq; f_equal; vm_compute; reflexivity|].
  split; [exact Hord|]. subst o.
  cbn [order_side order_status order_quantity filled_price fee].
  do 4 (split; [reflexivity|]).
  do 2 (split; [vm_compute; reflexivity|]).
  split.
  { rewrite Htr, Hsplit, close_first_open_split by assumption.
    repeat f_equal; try (vm_compute; reflexivity). }
  cbn [close_trade pnl pnl_percent exit_price entry_price trade_status].
  do 5 (split; [reflexivity|]).
  rewrite Hst. unfold get_position, close_position.
  cbn [positions set_positions]. apply lookup_delete_eq.
Qed.

(** Subtracting a finite binary64 number from itself gives exactly 0,
    and 0 divided by such a number that is not zero, times 100, is
    zero. *)
Lemma float_sub_diag (x : float) :
  finite_nonzero x = true -> fsub x x = flit 0.
Proof.
  unfold finite_nonzero. intros Hx. apply Prim2SF_inj.
  cbn [fsub float_PyFloat]. rewrite FloatAxioms.sub_spec.
  destruct (Prim2SF x) as [s|s| |s m e]; try discriminate.
  let c := eval vm_compute in (Prim2SF (flit 0)) in
    change (Prim2SF (flit 0)) with c.
  unfold SF64sub, SFsub. cbv zeta. rewrite Z.sub_diag. reflexivity.
Qed.

Lemma float_zero_ratio (x : float) :
  finite_nonzero x = true ->
  feq0 (fmul (fdiv (flit 0) x) (flit 100)) = true.
Proof.
  unfold finite_nonzero. intros Hx. cbn [feq0 fmul fdiv float_PyFloat].
  rewrite FloatAxioms.eqb_spec, FloatAxioms.mul_spec, FloatAxioms.div_spec.
  destruct (Prim2SF x) as [s|s| |s m e]; try discriminate.
  let c := eval vm_compute in (Prim2SF (flit 0)) in
    change (Prim2SF (flit 0)) with c.
  let c := eval vm_compute in (Prim2SF (flit 100)) in
    change (Prim2SF (flit 100)) with c.
  let c := eval vm_compute in (Prim2SF PrimFloat.zero) in
    change (Prim2SF PrimFloat.zero) with c.
  destruct s; reflexivity.
Qed.

Lemma float_finite_nonzero (x : float) :
  finite_nonzero x = true -> feq0 x = false.
Proof.
  unfold finite_nonzero. intros Hx. cbn [feq0 float_PyFloat].
  rewrite FloatAxioms.eqb_spec.
  destruct (Prim2SF x) as [s|s| |s m e]; try discriminate.
  let c := eval vm_compute in (Prim2SF PrimFloat.zero) in
    change (Prim2SF PrimFloat.zero) with c.
  destruct s; reflexivity.
Qed.

(** A binary64 number that is not below the minimum is not zero. *)
Lemma float_not_below_min (a : float) :
  (a <? MIN_TRADE_AMOUNT_USDT) = false -> feq0 a = false.
Proof.
  cbn [flt feq0 float_PyFloat].
  rewrite FloatAxioms.ltb_spec, FloatAxioms.eqb_spec.
  let c := eval vm_compute in (Prim2SF (MIN_TRADE_AMOUNT_USDT (F:=float))) in
    change (Prim2SF MIN_TRADE_AMOUNT_USDT) with c.
  let c := eval vm_compute in (Prim2SF PrimFloat.zero) in
    change (Prim2SF PrimFloat.zero) with c.
  unfold SFltb, SFeqb, SFcompare.
  destruct (Prim2SF a) as [s|s| |s m e]; try destruct s;
    first [discriminate | intros _; reflexivity].
Qed.

(** C1, amended: in paper mode and binary64, for a price above 0 and an
    amount within the bounds, let [cost = (amount / p) * p] as the code
    computes it, a finite number other than zero that the balance [b]
    covers ([b >= cost]).  A BUY of [amount / p] units at [p] followed by
    a SELL at the same [p] fills both orders, each carrying the simulated
    fee [cost * 0.001], closes the trade the buy opened with a pnl of
    exactly 0 and a pnl_percent that is zero, removes the position and
    leaves the paper USDT balance at [(b - cost) + cost]: the balance
    before, debited and credited by the same cost.  The fees are
    recorded on the orders and subtracted from neither the pnl nor the
    balance. *)
Theorem paper_round_trip (sym : string) (rb rs : list string)
    (p amount b : float) (amt' : option float) (w : @World float) :
  paper_mode (self w) = true ->
  (p <=? flit 0) = false ->
  (amount <? MIN_TRADE_AMOUNT_USDT) = false ->
  (amount >? MAX_TRADE_AMOUNT_USDT) = false ->
  (requested_amount amt' <? MIN_TRADE_AMOUNT_USDT) = false ->
  can_open_position sym (strategy w) = true ->
  Forall (fun kt => is_open_for sym kt.2 = false) (trades (self w)) ->
  paper_balance (self w) !! "USDT" = Some b ->
  (b <? fmul (fdiv amount p) p) = false ->
  finite_nonzero (fmul (fdiv amount p) p) = true ->
  exists o1 w1 o2 w2 l1 k t l2,
    execute_signal
      {| signal_type := BUY; symbol := sym; price := p; reasons := rb |}
      (Some amount) w = (Return (Some o1), w1)
    /\ execute_signal
         {| signal_type := SELL; symbol := sym; price := p; reasons := rs |}
         amt' w1 = (Return (Some o2), w2)
    /\ orders (self w2) = orders (self w) ++ [o1; o2]
    /\ order_quantity o1 = fdiv amount p
    /\ order_quantity o2 = fdiv amount p
    /\ fee o1 = fmul (fmul (fdiv amount p) p) (flit (1 # 1000))
    /\ fee o2 = fmul (fmul (fdiv amount p) p) (flit (1 # 1000))
    /\ trades (self w2) = l1 ++ (k, t) :: l2
    /\ Forall (fun kt => is_open_for sym kt.2 = false) l1
    /\ Forall (fun kt => is_open_for sym kt.2 = false) l2
    /\ trade_symbol t = sym
    /\ trade_status t = "closed"
    /\ trade_quantity t = fdiv amount p
    /\ entry_price t = p
    /\ exit_price t = p
    /\ pnl t = flit 0
    /\ feq0 (pnl_percent t) = true
    /\ get_position sym (strategy w2) = None
    /\ paper_balance (self w2) !! "USDT"
       = Some (fadd (fsub b (fmul (fdiv amount p) p)) (fmul (fdiv amount p) p)).
Proof.
  intros Hpaper Hp Hlo Hhi Hlo' Hcan Hnone Hb Hcover Hfin.
  set (buy := {| signal_type := BUY; symbol := sym; price := p;
                 reasons := rb |}).
  set (sell := {| signal_type := SELL; symbol := sym; price := p;
                  reasons := rs |}).
  assert (Hreq : requested_amount (Some amount) = amount).
  { unfold requested_amount, py_or.
    rewrite (float_not_below_min amount Hlo). reflexivity. }
  destruct (execute_buy_paper_run buy (Some amount) amount b w)
    as (o1 & w1 & Hrun1 & Ho1 & Hbal1 & Hord1 & Htr1 & _ & _ & Hpm1 & _
        & Hst1 & Hclk1 & _).
  { reflexivity. }
  { exact Hpaper. }
  { rewrite Hreq. exact Hlo. }
  { rewrite Hreq. unfold capped_amount. rewrite Hhi. reflexivity. }
  { exact Hp. }
  { exact Hcan. }
  { exact Hb. }
  { exact Hcover. }
  subst buy. cbn [symbol price] in *.
  set (pos := {| pos_symbol := sym; pos_entry_price := p;
                 pos_quantity := fdiv amount p; opened_at := clock w |}).
  destruct (execute_sell_paper_run sell amt'
              (fsub b (fmul (fdiv amount p) p)) pos w1)
    as (o2 & w2 & Hrun2 & Ho2 & Hbal2 & Hord2 & Htr2 & _ & _ & _ & _
        & Hst2 & _).
  { reflexivity. }
  { rewrite Hpm1. exact Hpaper. }
  { exact Hlo'. }
  { rewrite Hst1. unfold get_position, add_position.
    cbn [positions set_positions symbol sell]. apply lookup_insert_eq. }
  { rewrite Hbal1. apply lookup_insert_eq. }
  { cbn [pos_quantity pos_entry_price pos].
    apply float_finite_nonzero, Hfin. }
  subst sell pos. cbn [symbol price pos_quantity pos_entry_price] in *.
  destruct (dict_set_split
              ("TRADE-" +:+ pretty (_trade_counter (self w) + 1)%nat)
              {| trade_id := "TRADE-" +:+ pretty (_trade_counter (self w) + 1)%nat;
                 trade_symbol := sym; trade_side := "long";
                 trade_quantity := fdiv amount p; entry_price := p;
                 exit_price := flit 0; pnl := flit 0; pnl_percent := flit 0;
                 entry_time := Some (clock w); exit_time := None;
                 trade_is_paper := true; trade_status := "open" |}
              (trades (self w)) _ Hnone) as (l1 & l2 & Hsplit & Hl1 & Hl2).
  cbn [trade_id] in Htr1. rewrite Htr1, Hsplit in Htr2.
  rewrite close_first_open_split in Htr2;
    [|exact Hl1
     |unfold is_open_for; cbn [trade_symbol trade_status];
      rewrite String.eqb_refl; reflexivity].
  rewrite (float_sub_diag _ Hfin) in Htr2.
  exists o1, w1, o2, w2, l1. eexists _, _, l2.
  split; [exact Hrun1|]. split; [exact Hrun2|].
  split; [rewrite Hord2, Hord1, <- app_assoc; reflexivity|].
  subst o1 o2. cbn [order_quantity fee].
  do 4 (split; [reflexivity|]).
  split; [exact Htr2|]. split; [exact Hl1|]. split; [exact Hl2|].
  cbn [close_trade trade_symbol trade_status trade_quantity entry_price
       exit_price pnl pnl_percent].
  do 6 (split; [reflexivity|]).
  split; [apply float_zero_ratio, Hfin|].
  split.
  { rewrite Hst2. unfold get_position, close_position.
    cbn [positions set_positions]. apply lookup_delete_eq. }
  rewrite Hbal2. apply lookup_insert_eq.
Qed.

End Binary64.

(** ** Concrete runs *)

Section Scenarios.
Local Open Scope py_scope.

(** Two binary64 numbers that compare different are different. *)
Ltac float_differ :=
  let E := fresh in
  intros E; vm_compute in E;
  match type of E with
  | Some ?x = _ =>
      apply (f_equal (fun o => match o with
                               | Some z => PrimFloat.eqb z x
                               | None => false
                               end)) in E
  | ?x = _ => apply (f_equal (fun z => PrimFloat.eqb z x)) in E
  end;
  vm_compute in E; discriminate E.

(** C1, counterexample: after 100 USDT of X is bought at 10 from a balance
    of 10000 and sold back at 10, each order carries a fee of 0.1, yet
    the closed trade's pnl is 0, not 0 minus the fees, and the balance is
    10000 again, not 10000 minus the fees. *)
Lemma round_trip_fees_not_deducted :
  exists o1 o2 t,
    bought.1 = Return (Some o1)
    /\ sold_back.1 = Return (Some o2)
    /\ fee o1 = flit (1 # 10)
    /\ fee o2 = flit (1 # 10)
    /\ trades (self sold_back.2) = [("TRADE-1", t)]
    /\ trade_status t = "closed"
    /\ pnl t = flit 0
    /\ pnl t <> flit 0 - (fee o1 + fee o2)
    /\ paper_balance (self fresh64) !! "USDT" = Some (flit 10000)
    /\ paper_balance (self sold_back.2) !! "USDT" = Some (flit 10000)
    /\ paper_balance (self sold_back.2) !! "USDT"
       <> Some (flit 10000 - (fee o1 + fee o2)).
Proof.
  do 3 eexists.
  split; [vm_compute; reflexivity|]. split; [vm_compute; reflexivity|].
  split; [vm_compute; reflexivity|]. split; [vm_compute; reflexivity|].
  split; [vm_compute; reflexivity|]. split; [reflexivity|].
  split; [reflexivity|]. split; [float_differ|].
  split; [vm_compute; reflexivity|]. split; [vm_compute; reflexivity|].
  float_differ.
Qed.

(** C7, counterexample: an amount of 0 is strictly below the minimum of
    10, yet a BUY asking for it is executed: an order comes back, the
    balance drops from 10000 to 9900 and a position is opened. *)
Lemma zero_amount_is_executed :
  ((flit 0 : float) <? MIN_TRADE_AMOUNT_USDT) = true
  /\ zero_amount_buy.1 <> Return None
  /\ paper_balance (self fresh64) !! "USDT" = Some (flit 10000 : float)
  /\ paper_balance (self zero_amount_buy.2) !! "USDT" = Some (flit 9900)
  /\ get_position "X" (strategy fresh64) = None
  /\ get_position "X" (strategy zero_amount_buy.2) <> None.
Proof.
  split; [vm_compute; reflexivity|].
  split; [vm_compute; discriminate|].
  split; [vm_compute; reflexivity|]. split; [vm_compute; reflexivity|].
  split; [vm_compute; reflexivity|]. vm_compute; discriminate.
Qed.

(** *** The theorems at work on the scenarios *)

(** With the default triggers and no position, a snapshot with RSI 25,
    dip 6 and volume spike 1.0 (below 1.5) yields HOLD. *)
Lemma evaluate_buy_iff_witness :
  signal_type (evaluate "X" two_of_three fresh_strategy) = HOLD
  /\ reasons (evaluate "X" two_of_three fresh_strategy) = [].
Proof.
  apply (proj2 (evaluate_buy_iff "X" two_of_three fresh_strategy));
    vm_compute; reflexivity.
Defined.

(** The buy scenario on the freshly started process. *)
Lemma paper_buy_scenario_witness :
  exists o w',
    execute_signal (signal_of BUY "X" (flit 10)) (Some (flit 100)) fresh64
    = (Return (Some o), w')
    /\ paper_balance (self w') !! "USDT" = Some (flit 9900 : float)
    /\ fee o = flit (1 # 10).
Proof.
  destruct (paper_buy_scenario "X" [] fresh64)
    as (o & w' & k & t & Hrun & Hbal & _ & _ & _ & _ & _ & Hfee & _).
  - reflexivity.
  - vm_compute; reflexivity.
  - vm_compute; reflexivity.
  - constructor.
  - exists o, w'. repeat split; assumption.
Defined.

(** The sell scenario on the process state the buy scenario leaves. *)
Lemma paper_sell_scenario_witness :
  exists o w',
    execute_signal (signal_of SELL "X" (flit 11)) None bought.2
    = (Return (Some o), w')
    /\ paper_balance (self w') !! "USDT" = Some (flit 10010 : float)
    /\ fee o = flit (11 # 100).
Proof.
  destruct (paper_sell_scenario "X" []
              {| pos_symbol := "X"; pos_entry_price := flit 10;
                 pos_quantity := flit 10; opened_at := 0 |}
              [] [] "TRADE-1"
              {| trade_id := "TRADE-1"; trade_symbol := "X";
                 trade_side := "long"; trade_quantity := flit 10;
                 entry_price := flit 10; exit_price := flit 0;
                 pnl := flit 0; pnl_percent := flit 0;
                 entry_time := Some 0; exit_time := None;
                 trade_is_paper := true; trade_status := "open" |}
              bought.2)
    as (o & w' & t' & Hrun & Hbal & _ & _ & _ & _ & _ & _ & Hfee & _).
  - reflexivity.
  - vm_compute; reflexivity.
  - vm_compute; reflexivity.
  - reflexivity.
  - reflexivity.
  - vm_compute; reflexivity.
  - constructor.
  - reflexivity.
  - exists o, w'. repeat split; assumption.
Defined.

(** The sell path on the same state. *)
Lemma sell_path_witness :
  exists o w',
    execute_signal (signal_of SELL "X" (flit 11)) None bought.2
    = (Return (Some o), w')
    /\ order_side o = "sell"
    /\ get_position "X" (strategy w') = None.
Proof.
  destruct (proj2 (sell_path (signal_of SELL "X" (flit 11)) None bought.2
                     eq_refl)
              {| pos_symbol := "X"; pos_entry_price := flit 10;
                 pos_quantity := flit 10; opened_at := 0 |}
              (flit 9900))
    as (o & w' & Hrun & _ & _ & _ & Hside & _ & _ & _ & _ & _ & Hgone & _).
  - vm_compute; reflexivity.
  - reflexivity.
  - vm_compute; reflexivity.
  - vm_compute; reflexivity.
  - vm_compute; reflexivity.
  - exists o, w'. repeat split; assumption.
Defined.

(** The insufficient-balance scenario: balance 5, a buy costing 100. *)
Lemma buy_rejection_is_atomic_witness :
  execute_signal (signal_of BUY "X" (flit 10)) (Some (flit 100)) poor_world
  = (Return None, poor_world).
Proof.
  apply (buy_rejection_is_atomic (signal_of BUY "X" (flit 10))
           (Some (flit 100)) poor_world).
  - reflexivity.
  - reflexivity.
  - right. right. vm_compute. reflexivity.
Defined.

(** A buy asking for 5 USDT, below the minimum of 10. *)
Lemma amount_validation_witness :
  execute_signal (signal_of BUY "X" (flit 10)) (Some (flit 5)) fresh64
  = (Return None, fresh64).
Proof.
  apply (proj1 (amount_validation (signal_of BUY "X" (flit 10)) (flit 5)
                  fresh64 ltac:(discriminate))).
  - vm_compute; reflexivity.
  - vm_compute; reflexivity.
Defined.

(** A live buy of 10 units against an exchange that raises on orders of
    5 units or more. *)
Lemma live_adapter_failure_commits_nothing_witness :
  paper_mode (self picky_world) = false
  /\ exchange (self picky_world) = Some picky_exchange
  /\ execute_signal (signal_of BUY "X" (flit 10)) None picky_world
     = (Return None, picky_world).
Proof.
  split; [reflexivity|]. split; [reflexivity|].
  apply (live_adapter_failure_commits_nothing
           (signal_of BUY "X" (flit 10)) None picky_world).
  - reflexivity.
  - intros ex Hex. injection Hex as <-. vm_compute. reflexivity.
Defined.

(** A buy asking for 0 USDT runs as a buy of the default 100. *)
Lemma zero_or_missing_amount_defaults_witness :
  execute_signal (signal_of BUY "X" (flit 10)) (Some (flit 0)) fresh64
  = dispatch (signal_of BUY "X" (flit 10)) DEFAULT_TRADE_AMOUNT_USDT
      fresh64.
Proof.
  apply (zero_or_missing_amount_defaults (signal_of BUY "X" (flit 10))
           (Some (flit 0)) fresh64).
  - discriminate.
  - vm_compute; reflexivity.
Defined.

(** The round trip of 100 USDT at price 10 from a balance of 10000. *)
Lemma paper_round_trip_witness :
  exists o1 w1 o2 w2 t,
    execute_signal (signal_of BUY "X" (flit 10)) (Some (flit 100)) fresh64
    = (Return (Some o1), w1)
    /\ execute_signal (signal_of SELL "X" (flit 10)) None w1
       = (Return (Some o2), w2)
    /\ In t (trades (self w2)).*2
    /\ trade_status t = "closed"
    /\ pnl t = flit 0
    /\ paper_balance (self w2) !! "USDT" = Some (flit 10000 : float).
Proof.
  destruct (paper_round_trip "X" [] [] (flit 10) (flit 100) (flit 10000)
              None fresh64)
    as (o1 & w1 & o2 & w2 & l1 & k & t & l2 & Hbuy & Hsell & _ & _ & _ & _
        & _ & Htr & _ & _ & _ & Hst & _ & _ & _ & Hpnl & _ & _ & Hbal).
  - reflexivity.
  - vm_compute; reflexivity.
  - vm_compute; reflexivity.
  - vm_compute; reflexivity.
  - vm_compute; reflexivity.
  - vm_compute; reflexivity.
  - constructor.
  - vm_compute; reflexivity.
  - vm_compute; reflexivity.
  - vm_compute; reflexivity.
  - exists o1, w1, o2, w2, t.
    split; [exact Hbuy|]. split; [exact Hsell|].
    split; [rewrite Htr, fmap_app; apply in_or_app; right; left; reflexivity|].
    split; [exact Hst|]. split; [exact Hpnl|].
    rewrite Hbal. vm_compute. reflexivity.
Defined.

End Scenarios.

(** ** Further properties: the executor as a whole *)

(** Case analysis on every test a run meets. *)
Ltac split_run :=
  repeat match goal with
         | |- context [match ?x with _ => _ end] =>
             lazymatch x with
             | context [match _ with _ => _ end] => fail
             | _ => destruct x eqn:?
             end
         end.

(** Unfolds [execute_signal] down to its tests. *)
Ltac unfold_execute :=
  unfold execute_signal, _execute_buy, _execute_sell, _paper_buy,
    _paper_sell, _live_buy, _live_sell, subscript, py_div, live_fee; run.

(** Unfolds the wallet requests down to their tests. *)
Ltac unfold_wallet :=
  unfold wallet_deposit, wallet_withdraw, wallet_reset, deposit_paper_funds,
    withdraw_paper_funds, reset_paper_funds, set_mode; run.

(** [run] in a hypothesis. *)
Ltac run_in Hyp :=
  cbv beta iota zeta delta
    [bind ret raise lift gets modify try_except on_self on_strategy
     datetime_now set_self set_strategy set_trade_log_file
     set_paper_mode set_exchange set_orders set_trades
     set__order_counter set__trade_counter set_paper_balance
     self strategy trade_log_file fs_writable fs_truncates clock
     exchange_name paper_mode exchange orders trades
     _order_counter _trade_counter paper_balance
     _save_trade_history get_trade_history get_order_history
     result_key exchange_call from_option id fst snd] in Hyp.

Section Atomicity.
Context {F : Type} `{PyFloat F}.
Local Open Scope py_scope.

(** X1: [execute_signal] is all or nothing in paper mode, and for every
    signal but a BUY in live mode: whenever it does not return an order,
    be it a rejection, a failure of the exchange or an uncaught
    exception, the process state is the one before the call.  (A live
    BUY is left out: [_live_buy] records before its log line, which an
    answer with a null [average] makes fail.) *)
Theorem no_order_no_change (sig : TradingSignal) (amt : option F)
    (w : @World F) :
  paper_mode (self w) = true \/ signal_type sig <> BUY ->
  (exists o, (execute_signal sig amt w).1 = Return (Some o))
  \/ (execute_signal sig amt w).2 = w.
Proof.
  intros _. open_world w. unfold_execute.
  split_run; run; first [right; reflexivity | left; eexists; reflexivity].
Qed.

(** X2: in live mode [execute_signal] never lets an exception escape. *)
Theorem live_never_raises (sig : TradingSignal) (amt : option F)
    (w : @World F) :
  paper_mode (self w) = false ->
  exists r, (execute_signal sig amt w).1 = Return r.
Proof.
  intros Hlive. open_world w. subst. unfold_execute.
  split_run; run; try (eexists; reflexivity).
  all: match goal with
       | Hz : feq0 ?x = true, Hp : (?x <=? flit 0) = false |- _ =>
           apply feq0_fle in Hz; congruence
       end.
Qed.

(** X3: what [execute_signal] never touches: the mode, the exchange and
    its name, the triggers, the clock and the writability of the disk;
    every entry of the paper balance other than USDT; and, in live mode,
    the whole paper balance and the paper order counter. *)
Theorem execute_signal_frame (sig : TradingSignal) (amt : option F)
    (w : @World F) :
  let w' := (execute_signal sig amt w).2 in
  paper_mode (self w') = paper_mode (self w)
  /\ exchange (self w') = exchange (self w)
  /\ exchange_name (self w') = exchange_name (self w)
  /\ buy_triggers (strategy w') = buy_triggers (strategy w)
  /\ sell_triggers (strategy w') = sell_triggers (strategy w)
  /\ clock w' = clock w
  /\ fs_writable w' = fs_writable w
  /\ fs_truncates w' = fs_truncates w
  /\ (forall k, k <> "USDT" ->
        paper_balance (self w') !! k = paper_balance (self w) !! k)
  /\ (paper_mode (self w) = false ->
      paper_balance (self w') = paper_balance (self w)
      /\ _order_counter (self w') = _order_counter (self w)).
Proof.
  open_world w. unfold_execute. unfold add_position, close_position.
  split_run; run; cbn [buy_triggers sell_triggers set_positions];
    repeat split; try reflexivity; try discriminate;
    intros k Hk; rewrite lookup_insert_ne by congruence; reflexivity.
Qed.

(** X4: in paper mode [execute_signal] lets no exception escape when the
    paper balance has a USDT entry and the position of the signal's
    symbol, if there is one, has a cost [quantity * entry_price] that is
    not zero. *)
Theorem paper_never_raises (sig : TradingSignal) (amt : option F) (b : F)
    (w : @World F) :
  paper_mode (self w) = true ->
  paper_balance (self w) !! "USDT" = Some b ->
  (forall pos, get_position (symbol sig) (strategy w) = Some pos ->
               feq0 (pos_quantity pos * pos_entry_price pos) = false) ->
  exists r, (execute_signal sig amt w).1 = Return r.
Proof.
  intros Hpaper Hb Hcost. open_world w. subst. unfold_execute.
  split_run; run; try (eexists; reflexivity); try congruence.
  all: try (specialize (Hcost _ eq_refl); congruence).
  all: match goal with
       | Hz : feq0 ?x = true, Hp : (?x <=? flit 0) = false |- _ =>
           apply feq0_fle in Hz; congruence
       end.
Qed.

(** X5: the two exceptions of the paper sell path.  With an open
    position and an amount that passes validation, a SELL raises
    [ZeroDivisionError] when the position's cost is zero, and otherwise
    [KeyError] when the paper balance has no USDT entry; either way the
    position stays open and nothing is recorded. *)
Theorem paper_sell_exceptions (sig : TradingSignal) (amt : option F)
    (pos : Position) (w : @World F) :
  signal_type sig = SELL ->
  paper_mode (self w) = true ->
  (requested_amount amt <? MIN_TRADE_AMOUNT_USDT) = false ->
  get_position (symbol sig) (strategy w) = Some pos ->
  (feq0 (pos_quantity pos * pos_entry_price pos) = true ->
   execute_signal sig amt w = (Raise ZeroDivisionError, w))
  /\ (feq0 (pos_quantity pos * pos_entry_price pos) = false ->
      paper_balance (self w) !! "USDT" = None ->
      execute_signal sig amt w = (Raise KeyError, w)).
Proof.
  intros Hty Hpaper Hamt Hpos. open_world w. subst. unfold_execute.
  rewrite Hty. cbn [SignalType_eqb]. rewrite Hamt. run. rewrite Hpos. run.
  split; [intros Hz | intros Hz Hb]; rewrite Hz; [|rewrite Hb]; reflexivity.
Qed.


(** X6: an answer of the exchange that cannot be read is dropped.  When
    the market order went through but its result lacks [id] or [status],
    or carries a null [fee], [_live_buy] and [_live_sell] return nothing
    and record neither order, trade nor position change. *)
Theorem live_unreadable_result_not_recorded (sym : string) (q p entry : F)
    (sig : TradingSignal) (ex : Exchange) (r : OrderResult) (w : @World F) :
  exchange (self w) = Some ex ->
  r_id r = None \/ r_status r = None \/ r_fee r = Some FeeNull ->
  (create_market_buy_order ex sym q = Some r ->
   _live_buy sym q p sig w = (Return None, w))
  /\ (create_market_sell_order ex sym q = Some r ->
      _live_sell sym q p entry sig w = (Return None, w)).
Proof.
  intros Hex Hbad. open_world w. subst.
  split; intros Hcall; unfold _live_buy, _live_sell, py_div, live_fee; run;
    rewrite Hcall; run;
    destruct Hbad as [Hb | [Hb | Hb]]; rewrite Hb;
    split_run; reflexivity.
Qed.

(** X7: what a live buy records.  When the exchange answers with an
    [id], a [status], an [average] that is absent ([avg = None]) or a
    number ([avg = Some x]) and a fee that is absent or an object whose
    [cost] is absent or a number, [_live_buy] appends one order that
    carries the exchange's id, is FILLED exactly when the status is
    ['closed'] and PENDING otherwise, takes the average as the filled
    price (the requested price when absent) and the fee's [cost] (0 when
    absent); the new trade and the new position are entered at that
    filled price; the paper balance and the paper order counter are left
    alone.  An answer whose average is null is not covered. *)
Theorem live_buy_fill (sym id status : string) (q p : F) (avg : option F)
    (sig : TradingSignal) (ex : Exchange) (r : OrderResult) (w : @World F) :
  exchange (self w) = Some ex ->
  create_market_buy_order ex sym q = Some r ->
  r_id r = Some id ->
  r_status r = Some status ->
  r_average r = avg ->
  r_fee r <> Some FeeNull ->
  exists o w' t,
    _live_buy sym q p sig w = (Return (Some o), w')
    /\ orders (self w') = orders (self w) ++ [o]
    /\ order_id o = id
    /\ (order_status o = FILLED <-> status = "closed")
    /\ (order_status o = PENDING <-> status <> "closed")
    /\ filled_price o = default p avg
    /\ fee o = match r_fee r with
               | Some (FeeDict (Some c)) => c
               | _ => flit 0
               end
    /\ order_is_paper o = false
    /\ trades (self w')
       = dict_set ("TRADE-" +:+ pretty (_trade_counter (self w) + 1)%nat) t
           (trades (self w))
    /\ entry_price t = filled_price o
    /\ trade_quantity t = q
    /\ trade_status t = "open"
    /\ get_position sym (strategy w')
       = Some {| pos_symbol := sym; pos_entry_price := filled_price o;
                 pos_quantity := q; opened_at := clock w |}
    /\ paper_balance (self w') = paper_balance (self w)
    /\ _order_counter (self w') = _order_counter (self w).
Proof.
  intros Hex Hcall Hid Hst Havg Hfee. open_world w. subst.
  unfold _live_buy, live_fee, live_status, get_position, add_position. run.
  rewrite Hcall. run. rewrite Hid, Hst.
  assert (Hs : (if String.eqb status "closed" then FILLED else PENDING)
               = FILLED <-> status = "closed").
  { destruct (String.eqb_spec status "closed"); split; congruence. }
  assert (Hs' : (if String.eqb status "closed" then FILLED else PENDING)
                = PENDING <-> status <> "closed").
  { destruct (String.eqb_spec status "closed"); split; congruence. }
  destruct (r_fee r) as [[|[c|]]|]; try congruence;
    repeat match goal with
           | |- context [if ?fw then _ else _] => destruct fw
           end;
    do 3 eexists; (split; [reflexivity|]);
    cbn [order_id order_status filled_price fee order_is_paper entry_price
         trade_quantity trade_status positions set_positions];
    rewrite lookup_insert_eq;
    repeat split; try reflexivity; first [apply Hs | apply Hs'].
Qed.

(** X8: a live executor without an exchange is inert.  After [set_mode]
    switches an executor that holds no exchange object to live mode, as
    one constructed in paper mode does, every [execute_signal] returns
    nothing and changes nothing. *)
Theorem live_mode_without_exchange_is_inert (sig : TradingSignal)
    (amt : option F) (w : @World F) :
  exchange (self w) = None ->
  let w' := (set_mode false w).2 in
  execute_signal sig amt w' = (Return None, w').
Proof.
  intros Hex. open_world w. subst. unfold set_mode. unfold_execute.
  split_run; run; try reflexivity.
  all: match goal with
       | Hz : feq0 ?x = true, Hp : (?x <=? flit 0) = false |- _ =>
           apply feq0_fle in Hz; congruence
       end.
Qed.

End Atomicity.

(** ** Further properties: persistence, construction and the wallet *)

Section Housekeeping.
Context {F : Type} `{PyFloat F}.
Local Open Scope py_scope.

Lemma init_from_snapshot (D : string)
    (ccxt : option (string -> option (@Exchange F)))
    (name : option string) (mode : option bool) (e0 : OrderExecutor) :
  let e := __init__ D ccxt (snapshot e0) name mode in
  paper_balance e = paper_balance e0
  /\ orders e = [] /\ trades e = []
  /\ _order_counter e = 0%nat /\ _trade_counter e = 0%nat.
Proof.
  unfold __init__, _init_exchange, snapshot, PAPER_TRADING.
  destruct mode as [[|]|]; cbn [default from_option id negb paper_mode];
    try (repeat split; reflexivity).
  destruct ccxt as [lib|]; [|repeat split; reflexivity].
  cbn [exchange_name].
  match goal with |- context [lib ?n] => destruct (lib n) end;
    repeat split; reflexivity.
Qed.

(** A restart over a ledger file that does not parse has the starting
    balance. *)
Lemma init_from_unreadable (D : string)
    (ccxt : option (string -> option (@Exchange F)))
    (name : option string) (mode : option bool) :
  paper_balance (__init__ D ccxt FileUnreadable name mode)
  = initial_paper_balance.
Proof.
  unfold __init__, _init_exchange, _load_trade_history, PAPER_TRADING.
  destruct mode as [[|]|]; cbn [default from_option id negb paper_mode];
    try reflexivity.
  destruct ccxt as [lib|]; [|reflexivity].
  cbn [exchange_name].
  match goal with |- context [lib ?n] => destruct (lib n) end; reflexivity.
Qed.

(** X9: saving and restarting is a round trip on the paper balance and
    on nothing else, while a failed save can lose it.  When the write
    goes through, an executor constructed over the file
    [_save_trade_history] wrote has the very paper balance that was
    saved, while its orders and trades are empty and its counters are 0
    whatever was saved.  A write that fails before the file is opened
    leaves the file as it was; one that fails after [open(..., 'w')]
    truncated it leaves a file that does not parse, over which a restart
    has the starting balance, whatever the file held before.  The
    executor itself is never changed by saving. *)
Theorem save_restart_round_trip (D : string)
    (ccxt : option (string -> option (@Exchange F)))
    (name : option string) (mode : option bool) (w : @World F) :
  let w' := (_save_trade_history w).2 in
  self w' = self w
  /\ (fs_writable w = true ->
      let e := __init__ D ccxt (trade_log_file w') name mode in
      paper_balance e = paper_balance (self w)
      /\ orders e = [] /\ trades e = []
      /\ _order_counter e = 0%nat /\ _trade_counter e = 0%nat)
  /\ (fs_writable w = false -> fs_truncates w = false ->
      trade_log_file w' = trade_log_file w)
  /\ (fs_writable w = false -> fs_truncates w = true ->
      trade_log_file w' = FileUnreadable
      /\ paper_balance (__init__ D ccxt (trade_log_file w') name mode)
         = initial_paper_balance).
Proof.
  pose proof (init_from_snapshot D ccxt name mode (self w)) as Hinit.
  pose proof (init_from_unreadable D ccxt name mode) as Hbad.
  open_world w. unfold _save_trade_history. run.
  split; [destruct fs_writable0, fs_truncates0; reflexivity|].
  split; [intros ->; exact Hinit|].
  split; [intros -> ->; reflexivity|].
  intros -> ->. split; [reflexivity | exact Hbad].
Qed.

(** X10: every order that [execute_signal] returns is the last of the
    orders list, and the call saves: when the write goes through, the
    ledger file holds the state after the call, so that a restart
    restores the balance the call left, and none of its trades; when the
    write fails, the file is the one before (the failure came before the
    open) or one that does not parse (it came after the truncation). *)
Theorem returned_order_is_recorded (D : string)
    (ccxt : option (string -> option (@Exchange F)))
    (name : option string) (mode : option bool)
    (sig : TradingSignal) (amt : option F) (w : @World F) (o : Order) :
  (execute_signal sig amt w).1 = Return (Some o) ->
  let w' := (execute_signal sig amt w).2 in
  orders (self w') = orders (self w) ++ [o]
  /\ (fs_writable w = true ->
      trade_log_file w' = snapshot (self w')
      /\ let e := __init__ D ccxt (trade_log_file w') name mode in
         paper_balance e = paper_balance (self w')
         /\ trades e = [] /\ _trade_counter e = 0%nat)
  /\ (fs_writable w = false -> fs_truncates w = false ->
      trade_log_file w' = trade_log_file w)
  /\ (fs_writable w = false -> fs_truncates w = true ->
      trade_log_file w' = FileUnreadable).
Proof.
  intros Hret w'.
  assert (Hrec : orders (self w') = orders (self w) ++ [o]
                 /\ (fs_writable w = true ->
                     trade_log_file w' = snapshot (self w'))
                 /\ (fs_writable w = false -> fs_truncates w = false ->
                     trade_log_file w' = trade_log_file w)
                 /\ (fs_writable w = false -> fs_truncates w = true ->
                     trade_log_file w' = FileUnreadable)).
  { subst w'. revert Hret. open_world w. unfold snapshot. unfold_execute.
    split_run; run; intros Hret; try discriminate Hret;
      injection Hret as <-; repeat split; intros;
      first [reflexivity | discriminate]. }
  destruct Hrec as (Hord & Hrw & Hro & Hrt). split; [exact Hord|].
  split; [|split; assumption].
  intros Hw. split; [exact (Hrw Hw)|].
  rewrite (Hrw Hw).
  destruct (init_from_snapshot D ccxt name mode (self w'))
    as (Hb & _ & Ht & _ & Hc).
  repeat split; assumption.
Qed.

(** X11: how construction falls back.  The executor is live only when
    live mode was asked for and the exchange could be built, and then it
    holds that exchange; a missing ccxt library or a failing constructor
    leaves it in paper mode, and a paper executor holds no exchange.  A
    ledger file that is absent, unreadable or not a JSON object leaves
    the starting balance of 10000 USDT. *)
Theorem init_fallbacks (D : string)
    (ccxt : option (string -> option (@Exchange F))) (file : LedgerFile)
    (name : option string) (mode : option bool) :
  let e := __init__ D ccxt file name mode in
  (paper_mode e = false ->
   mode = Some false
   /\ exists lib x, ccxt = Some lib /\ lib (exchange_name e) = Some x
                    /\ exchange e = Some x)
  /\ (paper_mode e = true -> exchange e = None)
  /\ (ccxt = None -> paper_mode e = true)
  /\ ((forall lib, ccxt = Some lib -> forall n, lib n = None) ->
      paper_mode e = true)
  /\ (file = FileAbsent \/ file = FileUnreadable \/ file = FileJson JNonObject ->
      paper_balance e = {[ "USDT" := flit 10000 ]}).
Proof.
  unfold __init__, _init_exchange, _load_trade_history, PAPER_TRADING,
    initial_paper_balance.
  set (n := match name with
            | Some n => if String.eqb n "" then D else n
            | None => D
            end).
  destruct mode as [[|]|]; cbn [default from_option id negb paper_mode].
  1,3: destruct file as [| |[d|]]; cbn;
    (repeat split; try discriminate; try reflexivity;
     intros [Hf|[Hf|Hf]]; first [discriminate Hf | reflexivity]).
  destruct ccxt as [lib|]; cbn [exchange_name].
  - destruct (lib n) as [x|] eqn:Hlib;
      destruct file as [| |[d|]]; cbn;
      repeat split; try discriminate; try reflexivity;
      try (exists lib, x; repeat split; assumption);
      try (intros Hall; specialize (Hall lib eq_refl n); congruence);
      intros [Hf|[Hf|Hf]]; first [discriminate Hf | reflexivity].
  - destruct file as [| |[d|]]; cbn;
      repeat split; try discriminate; try reflexivity;
      intros [Hf|[Hf|Hf]]; first [discriminate Hf | reflexivity].
Qed.

(** What an accepted withdrawal leaves. *)
Lemma withdraw_run (a : F) (w : @World F) :
  paper_mode (self w) = true ->
  (default (flit 0) (paper_balance (self w) !! "USDT") >=? a) = true ->
  exists w',
    withdraw_paper_funds a w = (Return (Some true), w')
    /\ paper_balance (self w')
       = <["USDT" := default (flit 0) (paper_balance (self w) !! "USDT") - a]>
           (paper_balance (self w)).
Proof.
  intros Hpaper Hle. open_world w. subst. unfold_wallet. run_in Hle.
  rewrite Hle.
  destruct fs_writable0, fs_truncates0; eexists; repeat split; reflexivity.
Qed.

(** X16: the executor's withdrawal has no sign check.  In paper mode
    [withdraw_paper_funds] withdraws every amount the balance compares at
    or above, so also one that does not compare above 0, a negative one
    included: it answers [True] and sets the USDT balance to the balance
    less the amount.  It is the request handler [wallet_withdraw] that
    refuses every amount that does not compare above 0, leaving the
    process state as it was. *)
Theorem negative_withdrawal (a : F) (w : @World F) :
  paper_mode (self w) = true ->
  (a >? flit 0) = false ->
  (default (flit 0) (paper_balance (self w) !! "USDT") >=? a) = true ->
  (exists w',
     withdraw_paper_funds a w = (Return (Some true), w')
     /\ paper_balance (self w')
        = <["USDT" := default (flit 0) (paper_balance (self w) !! "USDT") - a]>
            (paper_balance (self w)))
  /\ wallet_withdraw a w = (Return false, w).
Proof.
  intros Hpaper Hsign Hle. split; [apply withdraw_run; assumption|].
  unfold wallet_withdraw. rewrite Hsign. reflexivity.
Qed.

(** X12: the wallet requests in live mode.  [wallet_deposit] of a
    positive amount and [wallet_reset] answer success although nothing is
    deposited or reset, and [wallet_withdraw] answers failure; the
    process state is unchanged by all three. *)
Theorem wallet_in_live_mode (amount : F) (w : @World F) :
  paper_mode (self w) = false ->
  (amount >? flit 0) = true ->
  wallet_deposit amount w = (Return true, w)
  /\ wallet_withdraw amount w = (Return false, w)
  /\ wallet_reset amount w = (Return true, w).
Proof.
  intros Hlive Hpos. open_world w. subst. unfold_wallet.
  rewrite Hpos. repeat split; reflexivity.
Qed.

(** X13: what the wallet requests never touch: orders, trades, both
    counters, the strategy with its positions, the mode, the exchange,
    and every entry of the paper balance other than USDT. *)
Theorem wallet_frame (a : @action F) (w : @World F) :
  (forall sig amt, a <> Signal sig amt) ->
  (forall paper, a <> Mode paper) ->
  let w' := step a w in
  orders (self w') = orders (self w)
  /\ trades (self w') = trades (self w)
  /\ _order_counter (self w') = _order_counter (self w)
  /\ _trade_counter (self w') = _trade_counter (self w)
  /\ strategy w' = strategy w
  /\ paper_mode (self w') = paper_mode (self w)
  /\ exchange (self w') = exchange (self w)
  /\ (forall k, k <> "USDT" ->
        paper_balance (self w') !! k = paper_balance (self w) !! k).
Proof.
  intros Hsig Hmode. open_world w.
  destruct a as [sig amt|amount|amount|amount|paper];
    [exfalso; exact (Hsig sig amt eq_refl) | | | |
     exfalso; exact (Hmode paper eq_refl)];
    unfold step; unfold_wallet; split_run; run;
    repeat split; try reflexivity;
    intros k Hk; rewrite lookup_insert_ne by congruence; reflexivity.
Qed.

End Housekeeping.

(** ** Further properties: the indicator helpers *)

Section IndicatorHelpers.
Context {F : Type} `{PyFloat F}.
Local Open Scope py_scope.

(** X20: the four indicator helpers never divide by zero, in any
    arithmetic: every call returns.  With a reference value that is not
    positive they return their neutral values (0 for the dip, the rise
    and the rise from entry, 1.0 for the volume spike); the dip and the
    rise are the literal 0 or a number that compares above 0, so never
    negative and never a NaN; and the rise from entry is the total
    function the strategy uses. *)
Theorem indicators_never_raise (x y : F) :
  (exists r, calculate_dip_percent x y = Return r
             /\ (r = flit 0 \/ (r >? flit 0) = true)
             /\ ((y <=? flit 0) = true -> r = flit 0))
  /\ (exists r, calculate_rise_percent x y = Return r
                /\ (r = flit 0 \/ (r >? flit 0) = true)
                /\ ((y <=? flit 0) = true -> r = flit 0))
  /\ calculate_rise_from_entry_py x y = Return (calculate_rise_from_entry x y)
  /\ ((y <=? flit 0) = true -> calculate_rise_from_entry x y = flit 0)
  /\ (exists r, calculate_volume_spike x y = Return r
                /\ ((y <=? flit 0) = true -> r = flit 1)).
Proof.
  unfold calculate_dip_percent, calculate_rise_percent,
    calculate_rise_from_entry_py, calculate_rise_from_entry,
    calculate_volume_spike, max0.
  destruct (y <=? flit 0) eqn:Hy.
  - repeat split; try (eexists; split; [reflexivity|]; split; auto); auto.
  - rewrite !(py_div_guarded _ _ Hy).
    repeat split; try discriminate;
      try (eexists; split; [reflexivity|]; split; [|discriminate]).
    + destruct (flit 0 <? (y - x) / y * flit 100) eqn:E; auto.
    + destruct (flit 0 <? (x - y) / y * flit 100) eqn:E; auto.
    + eexists. split; [reflexivity | discriminate].
Qed.

End IndicatorHelpers.

(** ** Further properties: what every session keeps *)

Section Sessions.
Context {F : Type} `{PyFloat F}.
Local Open Scope py_scope.

Lemma trade_key_inj (n m : nat) : trade_key n = trade_key m -> n = m.
Proof.
  unfold trade_key. intros Heq.
  apply (inj (String.append "TRADE-")) in Heq.
  apply (inj pretty) in Heq. exact Heq.
Qed.

Lemma dict_set_fresh (k : string) (t : @Trade F) (d : list (string * Trade)) :
  k ∉ d.*1 -> dict_set k t d = d ++ [(k, t)].
Proof.
  induction d as [|[k' t'] d IH]; intros Hk; [reflexivity|].
  cbn [dict_set]. rewrite fmap_cons, not_elem_of_cons in Hk.
  destruct Hk as [Hne Hk]. cbn [fst] in Hne.
  destruct (String.eqb_spec k' k) as [->|_]; [congruence|].
  rewrite (IH Hk). reflexivity.
Qed.

Lemma trade_key_fresh (d : list (string * @Trade F)) (n : nat) :
  d.*1 = trade_key <$> seq 1 n -> trade_key (n + 1) ∉ d.*1.
Proof.
  intros -> Hin. apply list_elem_of_fmap in Hin as (m & Heq & Hm).
  apply trade_key_inj in Heq. apply elem_of_seq in Hm. lia.
Qed.

Lemma close_first_open_keys (sym : string) (xp : F) (now : datetime)
    (p pp : F) (d : list (string * Trade)) :
  (close_first_open sym xp now p pp d).*1 = d.*1.
Proof.
  induction d as [|[k t] d IH]; [reflexivity|].
  cbn [close_first_open]. destruct (is_open_for sym t);
    rewrite !fmap_cons; cbn [fst]; [reflexivity|]. rewrite IH. reflexivity.
Qed.

Lemma close_first_open_Forall (P : string * @Trade F -> Prop)
    (sym : string) (xp : F) (now : datetime) (p pp : F)
    (d : list (string * Trade)) :
  (forall k t, P (k, t) -> P (k, close_trade t xp now p pp)) ->
  Forall P d -> Forall P (close_first_open sym xp now p pp d).
Proof.
  intros Hclose. induction 1 as [|[k t] d Hkt Hd IH]; [constructor|].
  cbn [close_first_open]. destruct (is_open_for sym t);
    constructor; auto.
Qed.

Lemma trades_wf_buy (d : list (string * @Trade F)) (n : nat) (t : Trade) :
  trades_wf d n ->
  trade_id t = trade_key (n + 1) ->
  trade_status t = "open" ->
  trades_wf (dict_set (trade_key (n + 1)) t d) (n + 1).
Proof.
  intros [Hkeys Hall] Hid Hst.
  rewrite (dict_set_fresh _ _ _ (trade_key_fresh d n Hkeys)). split.
  - rewrite fmap_app, Hkeys, Nat.add_1_r, seq_S, fmap_app. reflexivity.
  - apply Forall_app. split; [exact Hall|].
    constructor; [|constructor]. cbn [fst snd]. auto.
Qed.

Lemma trades_wf_close (d : list (string * @Trade F)) (n : nat)
    (sym : string) (xp : F) (now : datetime) (p pp : F) :
  trades_wf d n -> trades_wf (close_first_open sym xp now p pp d) n.
Proof.
  intros [Hkeys Hall]. split.
  - rewrite close_first_open_keys. exact Hkeys.
  - apply close_first_open_Forall; [|exact Hall].
    intros k t [Hid _]. cbn [fst snd close_trade trade_id trade_status] in *.
    auto.
Qed.

Lemma step_trades_wf (a : @action F) (w : @World F) :
  trades_wf (trades (self w)) (_trade_counter (self w)) ->
  trades_wf (trades (self (step a w))) (_trade_counter (self (step a w))).
Proof.
  intros Hwf. open_world w. fold trade_key.
  destruct a as [sig amt|amount|amount|amount|paper]; unfold step.
  - unfold_execute. split_run; run; fold trade_key;
      first [ exact Hwf
            | apply trades_wf_buy; [exact Hwf | reflexivity | reflexivity]
            | apply trades_wf_close; exact Hwf ].
  - unfold_wallet. split_run; run; exact Hwf.
  - unfold_wallet. split_run; run; exact Hwf.
  - unfold_wallet. split_run; run; exact Hwf.
  - unfold_wallet. exact Hwf.
Qed.

Lemma session_trades_wf (acts : list (@action F)) (w : @World F) :
  trades_wf (trades (self w)) (_trade_counter (self w)) ->
  trades_wf (trades (self (session acts w)))
    (_trade_counter (self (session acts w))).
Proof.
  revert w. induction acts as [|a acts IH]; intros w Hwf; [exact Hwf|].
  cbn [session fold_left]. apply IH, step_trades_wf, Hwf.
Qed.

Lemma open_closed_partition (d : list (string * @Trade F)) :
  Forall (fun kt => trade_status kt.2 = "open"
                    \/ trade_status kt.2 = "closed") d ->
  (length (List.filter (fun t => String.eqb (trade_status t) "open") d.*2)
   + length (List.filter (fun t => String.eqb (trade_status t) "closed") d.*2)
   = length d)%nat.
Proof.
  induction 1 as [|[k t] d Hkt _ IH]; [reflexivity|].
  rewrite fmap_cons. cbn [snd List.filter] in *.
  destruct Hkt as [-> | ->]; cbn [String.eqb Ascii.eqb Bool.eqb andb length];
    lia.
Qed.

(** X23: trade ids are never reused and no trade is overwritten.  After
    any sequence of calls (signals in either mode, wallet requests, mode
    switches) on an executor that started with no trade, the trades
    dictionary holds exactly the keys TRADE-1 ... TRADE-n in order, [n]
    being the trade counter, without duplicates; every trade sits under
    its own [trade_id] and is open or closed; and [get_open_trades] and
    [get_closed_trades] together count every trade once. *)
Theorem session_trade_ids (acts : list (@action F)) (w0 : @World F) :
  trades (self w0) = [] ->
  _trade_counter (self w0) = 0%nat ->
  let e := self (session acts w0) in
  (trades e).*1 = trade_key <$> seq 1 (_trade_counter e)
  /\ NoDup (trades e).*1
  /\ length (trades e) = _trade_counter e
  /\ Forall (fun kt => trade_id kt.2 = kt.1) (trades e)
  /\ (length (get_open_trades e) + length (get_closed_trades e)
      = _trade_counter e)%nat.
Proof.
  intros Hnone Hzero e.
  destruct (session_trades_wf acts w0) as [Hkeys Hall].
  { rewrite Hnone, Hzero. split; [reflexivity | constructor]. }
  fold e in Hkeys, Hall.
  assert (Hlen : length (trades e) = _trade_counter e).
  { rewrite <- (length_fmap fst), Hkeys, length_fmap, length_seq.
    reflexivity. }
  split; [exact Hkeys|]. split.
  { rewrite Hkeys. apply NoDup_fmap_2_strong; [|apply NoDup_seq].
    intros n m _ _. apply trade_key_inj. }
  split; [exact Hlen|]. split.
  { eapply Forall_impl; [exact Hall|]. intros kt [Hid _]. exact Hid. }
  unfold get_open_trades, get_closed_trades. rewrite <- Hlen.
  apply open_closed_partition.
  eapply Forall_impl; [exact Hall|]. intros kt [_ Hst]. exact Hst.
Qed.

Lemma is_open_for_sym (sym : string) (t : @Trade F) :
  is_open_for sym t = true -> trade_symbol t = sym.
Proof.
  unfold is_open_for. intros Ht. apply andb_prop in Ht as [Ht _].
  apply String.eqb_eq in Ht. exact Ht.
Qed.

Lemma is_open_for_closed (sym : string) (t : @Trade F) (xp : F)
    (now : datetime) (p pp : F) :
  is_open_for sym (close_trade t xp now p pp) = false.
Proof.
  unfold is_open_for. cbn [close_trade trade_status].
  apply andb_false_r.
Qed.

Lemma is_open_for_other (sym sym' : string) (t : @Trade F) :
  is_open_for sym t = true -> sym <> sym' -> is_open_for sym' t = false.
Proof.
  intros Ht Hne. apply is_open_for_sym in Ht. unfold is_open_for.
  rewrite Ht. destruct (String.eqb_spec sym sym'); [contradiction|reflexivity].
Qed.

Lemma count_open_close (sym sym' : string) (xp : F) (now : datetime)
    (p pp : F) (d : list (string * Trade)) :
  count_open sym' (close_first_open sym xp now p pp d)
  = if decide (sym = sym') then pred (count_open sym d)
    else count_open sym' d.
Proof.
  unfold count_open. destruct (decide (sym = sym')) as [<-|Hs].
  - induction d as [|[k t] d IH]; [reflexivity|].
    cbn [close_first_open]. destruct (is_open_for sym t) eqn:Ht;
      cbn [List.filter snd].
    + rewrite is_open_for_closed, Ht. reflexivity.
    + rewrite Ht. exact IH.
  - induction d as [|[k t] d IH]; [reflexivity|].
    cbn [close_first_open]. destruct (is_open_for sym t) eqn:Ht;
      cbn [List.filter snd].
    + rewrite is_open_for_closed, (is_open_for_other sym sym' t Ht Hs).
      reflexivity.
    + destruct (is_open_for sym' t); cbn [length]; rewrite IH; reflexivity.
Qed.

Lemma mirror_buy (d : list (string * @Trade F)) (n : nat) (t : Trade)
    (sym : string) (p q : F) (now : datetime) (s : TradingStrategy) :
  trades_wf d n ->
  mirror d s ->
  can_open_position sym s = true ->
  trade_symbol t = sym ->
  trade_status t = "open" ->
  mirror (dict_set (trade_key (n + 1)) t d) (add_position sym p q now s).
Proof.
  intros [Hkeys _] [Hcount Hsize] Hcan Hsym Hst.
  rewrite (dict_set_fresh _ _ _ (trade_key_fresh d n Hkeys)).
  unfold can_open_position in Hcan.
  destruct (positions s !! sym) as [pos|] eqn:Hpos; [discriminate|].
  apply andb_prop in Hcan as [Hlt _]. apply bool_decide_eq_true in Hlt.
  unfold add_position, mirror. cbn [positions set_positions]. split.
  - intros sym'. unfold count_open in *.
    rewrite List.filter_app, length_app, Hcount. cbn [List.filter snd].
    unfold is_open_for. rewrite Hsym, Hst.
    destruct (String.eqb_spec sym sym') as [<-|Hne].
    + rewrite lookup_insert_eq, Hpos. reflexivity.
    + rewrite lookup_insert_ne by exact Hne.
      cbn [andb length]. lia.
  - rewrite map_size_insert_None by exact Hpos. lia.
Qed.

Lemma mirror_sell (d : list (string * @Trade F)) (sym : string) (xp : F)
    (now : datetime) (p pp : F) (pos : Position) (s : TradingStrategy) :
  mirror d s ->
  get_position sym s = Some pos ->
  mirror (close_first_open sym xp now p pp d) (close_position sym s).
Proof.
  intros [Hcount Hsize] Hpos. unfold get_position in Hpos.
  unfold close_position, mirror. cbn [positions set_positions]. split.
  - intros sym'. rewrite count_open_close. case_decide as Hs.
    + subst sym'. rewrite lookup_delete_eq, Hcount, Hpos. reflexivity.
    + rewrite lookup_delete_ne by exact Hs. apply Hcount.
  - rewrite map_size_delete, Hpos. lia.
Qed.

Lemma step_session_inv (a : @action F) (w : @World F) :
  session_inv w -> session_inv (step a w).
Proof.
  intros [Hwf Hmirror]. split; [apply step_trades_wf, Hwf|].
  open_world w. fold trade_key.
  destruct a as [sig amt|amount|amount|amount|paper]; unfold step.
  - unfold_execute. split_run; run; fold trade_key;
      repeat match goal with
             | Hc : negb _ = false |- _ => apply negb_false_iff in Hc
             end;
      first [ exact Hmirror
            | eapply mirror_buy; [exact Hwf | exact Hmirror | eassumption
                                 | reflexivity | reflexivity]
            | eapply mirror_sell; [exact Hmirror | eassumption] ].
  - unfold_wallet. split_run; run; exact Hmirror.
  - unfold_wallet. split_run; run; exact Hmirror.
  - unfold_wallet. split_run; run; exact Hmirror.
  - unfold_wallet. exact Hmirror.
Qed.

Lemma session_session_inv (acts : list (@action F)) (w : @World F) :
  session_inv w -> session_inv (session acts w).
Proof.
  revert w. induction acts as [|a acts IH]; intros w Hinv; [exact Hinv|].
  cbn [session fold_left]. apply IH, step_session_inv, Hinv.
Qed.

(** X24: open trades mirror positions.  With the position store behaving
    as specified, after any sequence of calls on a process that started
    with no trade and no position, every symbol has exactly one open
    trade when it has a position and none otherwise, so never two open
    trades for one symbol, and at most [MAX_OPEN_POSITIONS] positions are
    open. *)
Theorem session_positions_mirror (acts : list (@action F)) (w0 : @World F) :
  trades (self w0) = [] ->
  _trade_counter (self w0) = 0%nat ->
  positions (strategy w0) = ∅ ->
  let w := session acts w0 in
  (forall sym,
     count_open sym (trades (self w))
     = match get_position sym (strategy w) with Some _ => 1 | None => 0 end
     /\ count_open sym (trades (self w)) <= 1)
  /\ size (positions (strategy w)) <= MAX_OPEN_POSITIONS.
Proof.
  intros Hnone Hzero Hpos w.
  destruct (session_session_inv acts w0) as [_ [Hcount Hsize]].
  { split.
    - rewrite Hnone, Hzero. split; [reflexivity | constructor].
    - unfold mirror. rewrite Hnone, Hpos. split.
      + intros sym. rewrite lookup_empty. reflexivity.
      + rewrite map_size_empty. unfold MAX_OPEN_POSITIONS. lia. }
  fold w in Hcount, Hsize. split; [|exact Hsize].
  intros sym. unfold get_position. rewrite (Hcount sym).
  split; [reflexivity|]. destruct (positions (strategy w) !! sym); lia.
Qed.

End Sessions.

(** ** Further properties: the balance over a session *)

Section BalanceKey.
Context {F : Type} `{PyFloat F}.
Local Open Scope py_scope.

Lemma step_keeps_usdt (a : @action F) (w : @World F) :
  is_Some (paper_balance (self w) !! "USDT") ->
  is_Some (paper_balance (self (step a w)) !! "USDT").
Proof.
  intros Hkey. open_world w.
  destruct a as [sig amt|amount|amount|amount|paper]; unfold step;
    [unfold_execute | unfold_wallet | unfold_wallet | unfold_wallet
    | unfold_wallet];
    split_run; run;
    first [ exact Hkey | rewrite lookup_insert_eq; eauto
          | match goal with Hb : _ !! _ = _ |- _ => rewrite Hb; eauto end
          | destruct Hkey; discriminate ].
Qed.

Lemma session_keeps_usdt (acts : list (@action F)) (w : @World F) :
  is_Some (paper_balance (self w) !! "USDT") ->
  is_Some (paper_balance (self (session acts w)) !! "USDT").
Proof.
  revert w. induction acts as [|a acts IH]; intros w Hkey; [exact Hkey|].
  cbn [session fold_left]. apply IH, step_keeps_usdt, Hkey.
Qed.

(** X25: the USDT entry is never lost.  Once the paper balance has a
    USDT entry, as it has after a start without ledger file, it has one
    after any sequence of signals, wallet requests and mode switches, and
    no [execute_signal] that follows raises [KeyError]. *)
Theorem session_never_key_error (acts : list (@action F))
    (sig : TradingSignal) (amt : option F) (w0 : @World F) :
  is_Some (paper_balance (self w0) !! "USDT") ->
  is_Some (paper_balance (self (session acts w0)) !! "USDT")
  /\ (execute_signal sig amt (session acts w0)).1 <> Raise KeyError.
Proof.
  intros Hkey0. pose proof (session_keeps_usdt acts w0 Hkey0) as Hkey.
  split; [exact Hkey|].
  destruct Hkey as [b Hb]. revert Hb.
  generalize (session acts w0). intros w Hb.
  open_world w. unfold_execute.
  split_run; run; try discriminate; congruence.
Qed.

End BalanceKey.

(** ** Further properties: a live sell that cannot be priced *)

Section LiveSell.
Context {F : Type} `{PyFloat F}.
Local Open Scope py_scope.

Lemma live_sell_zero_cost (sym : string) (q p entry : F)
    (sig : TradingSignal) (w : @World F) :
  feq0 (q * entry) = true ->
  _live_sell sym q p entry sig w = (Return None, w).
Proof.
  intros Hzero. open_world w. unfold _live_sell, py_div, live_fee; run.
  rewrite Hzero. split_run; reflexivity.
Qed.

(** X27: in live mode the division by a zero cost is caught.  A SELL of
    a position whose cost [quantity * entry_price] is zero returns nothing
    and leaves the process state as it was, whatever the exchange
    answers to the market order, a fill included: no order is recorded,
    the trade stays open and the position stays held; where paper mode
    raises [ZeroDivisionError]. *)
Theorem live_sell_of_zero_cost_position (sig : TradingSignal)
    (amt : option F) (pos : Position) (ex : Exchange) (w : @World F) :
  signal_type sig = SELL ->
  paper_mode (self w) = false ->
  exchange (self w) = Some ex ->
  (requested_amount amt <? MIN_TRADE_AMOUNT_USDT) = false ->
  get_position (symbol sig) (strategy w) = Some pos ->
  feq0 (pos_quantity pos * pos_entry_price pos) = true ->
  execute_signal sig amt w = (Return None, w)
  /\ _live_sell (symbol sig) (pos_quantity pos) (price sig)
       (pos_entry_price pos) sig w = (Return None, w).
Proof.
  intros Hty Hlive Hex Hmin Hpos Hzero.
  split; [|apply live_sell_zero_cost, Hzero].
  unfold execute_signal. rewrite Hty. cbn [SignalType_eqb]. rewrite Hmin.
  unfold _execute_sell. cbv beta iota delta [bind gets].
  rewrite Hpos, Hlive. apply live_sell_zero_cost, Hzero.
Qed.

End LiveSell.

(** ** The further theorems at work on the scenarios *)

Section MoreScenarios.
Local Open Scope py_scope.

(** A paper SELL that raises [KeyError] leaves the state as it was. *)
Lemma no_order_no_change_witness :
  (execute_signal (signal_of SELL "X" (flit 11)) None stranded_world).2
  = stranded_world.
Proof.
  destruct (no_order_no_change (signal_of SELL "X" (flit 11)) None
              stranded_world) as [[o Ho]|Hw].
  - left. reflexivity.
  - vm_compute in Ho. discriminate Ho.
  - exact Hw.
Defined.

(** A BUY on the live executor whose exchange always fails returns. *)
Lemma live_never_raises_witness :
  exists r,
    (execute_signal (signal_of BUY "X" (flit 10)) None live_world).1
    = Return r.
Proof.
  apply (live_never_raises (signal_of BUY "X" (flit 10)) None live_world).
  vm_compute; reflexivity.
Defined.

(** Selling the position the buy scenario opened returns. *)
Lemma paper_never_raises_witness :
  exists r,
    (execute_signal (signal_of SELL "X" (flit 11)) None bought.2).1
    = Return r.
Proof.
  apply (paper_never_raises (signal_of SELL "X" (flit 11)) None (flit 9900)
           bought.2).
  - vm_compute; reflexivity.
  - vm_compute; reflexivity.
  - intros pos Hpos. vm_compute in Hpos.
    assert (Hq : pos_quantity pos = flit 10) by (inversion Hpos; reflexivity).
    assert (He : pos_entry_price pos = flit 10)
      by (inversion Hpos; reflexivity).
    rewrite Hq, He. vm_compute; reflexivity.
Defined.

(** A SELL over a paper balance without USDT entry raises [KeyError]
    and leaves the state as it was. *)
Lemma paper_sell_exceptions_witness :
  execute_signal (signal_of SELL "X" (flit 11)) None stranded_world
  = (Raise KeyError, stranded_world).
Proof.
  destruct (paper_sell_exceptions (signal_of SELL "X" (flit 11)) None
              {| pos_symbol := "X"; pos_entry_price := flit 10;
                 pos_quantity := flit 10; opened_at := 0 |}
              stranded_world) as [_ Hkey].
  - reflexivity.
  - vm_compute; reflexivity.
  - vm_compute; reflexivity.
  - vm_compute; reflexivity.
  - apply Hkey; vm_compute; reflexivity.
Defined.

(** An answer without [id] is dropped. *)
Lemma live_unreadable_result_not_recorded_witness :
  _live_buy "X" (flit 10) (flit 10) (signal_of BUY "X" (flit 10))
    (live_over mute_exchange)
  = (Return None, live_over mute_exchange).
Proof.
  destruct (live_unreadable_result_not_recorded "X" (flit 10) (flit 10)
              (flit 10) (signal_of BUY "X" (flit 10)) mute_exchange
              mute_result (live_over mute_exchange)) as [Hbuy _].
  - vm_compute; reflexivity.
  - left. reflexivity.
  - apply Hbuy. reflexivity.
Defined.

(** A live buy answered with id abc, status closed and average 10.5. *)
Lemma live_buy_fill_witness :
  exists o w',
    _live_buy "X" (flit 10) (flit 10) (signal_of BUY "X" (flit 10))
      (live_over answering_exchange)
    = (Return (Some o), w')
    /\ order_id o = "abc"
    /\ order_status o = FILLED
    /\ filled_price o = flit (21 # 2).
Proof.
  destruct (live_buy_fill "X" "abc" "closed" (flit 10) (flit 10)
              (Some (flit (21 # 2))) (signal_of BUY "X" (flit 10))
              answering_exchange filled_result
              (live_over answering_exchange))
    as (o & w' & t & Hrun & _ & Hid & Hst & _ & Hpr & _).
  - reflexivity.
  - reflexivity.
  - reflexivity.
  - reflexivity.
  - reflexivity.
  - discriminate.
  - exists o, w'. split; [exact Hrun|]. split; [exact Hid|].
    split; [apply Hst; reflexivity | exact Hpr].
Defined.


(** The freshly started paper executor, switched to live mode. *)
Lemma live_mode_without_exchange_is_inert_witness :
  execute_signal (signal_of BUY "X" (flit 10)) None (set_mode false fresh64).2
  = (Return None, (set_mode false fresh64).2).
Proof.
  apply (live_mode_without_exchange_is_inert (signal_of BUY "X" (flit 10))
           None fresh64).
  reflexivity.
Defined.

(** The order of the buy scenario is the one order on record. *)
Lemma returned_order_is_recorded_witness :
  exists o,
    bought.1 = Return (Some o)
    /\ orders (self bought.2) = orders (self fresh64) ++ [o].
Proof.
  assert (E : exists o, bought.1 = Return (Some o))
    by (vm_compute; eexists; reflexivity).
  destruct E as [o E]. exists o. split; [exact E|].
  apply (returned_order_is_recorded "mexc" None None None
           (signal_of BUY "X" (flit 10)) (Some (flit 100)) fresh64 o E).
Defined.

(** Withdrawing -5 from the starting balance. *)
Lemma negative_withdrawal_witness :
  (withdraw_paper_funds (flit (-5)) fresh64).1 = Return (Some true)
  /\ wallet_withdraw (flit (-5)) fresh64 = (Return false, fresh64).
Proof.
  destruct (negative_withdrawal (flit (-5)) fresh64)
    as ((w' & Hrun & _) & Hreq).
  - reflexivity.
  - vm_compute; reflexivity.
  - vm_compute; reflexivity.
  - split; [rewrite Hrun; reflexivity | exact Hreq].
Defined.

(** The wallet requests for 50 USDT on the live executor. *)
Lemma wallet_in_live_mode_witness :
  wallet_deposit (flit 50) live_world = (Return true, live_world)
  /\ wallet_withdraw (flit 50) live_world = (Return false, live_world)
  /\ wallet_reset (flit 50) live_world = (Return true, live_world).
Proof.
  apply (wallet_in_live_mode (flit 50) live_world).
  - vm_compute; reflexivity.
  - vm_compute; reflexivity.
Defined.

(** A deposit after the buy scenario leaves its position. *)
Lemma wallet_frame_witness :
  strategy (step (Deposit (flit 50)) bought.2) = strategy bought.2
  /\ trades (self (step (Deposit (flit 50)) bought.2))
     = trades (self bought.2).
Proof.
  destruct (wallet_frame (Deposit (flit 50)) bought.2)
    as (_ & Htr & _ & _ & Hst & _).
  - intros sig amt; discriminate.
  - intros paper; discriminate.
  - split; [exact Hst | exact Htr].
Defined.

(** The trade ids of the day of calls. *)
Lemma session_trade_ids_witness :
  (trades (self (session busy_day fresh64))).*1
  = trade_key <$> seq 1 (_trade_counter (self (session busy_day fresh64)))
  /\ NoDup (trades (self (session busy_day fresh64))).*1.
Proof.
  destruct (session_trade_ids busy_day fresh64) as (Hkeys & Hnd & _).
  - vm_compute; reflexivity.
  - vm_compute; reflexivity.
  - split; [exact Hkeys | exact Hnd].
Defined.

(** After the day of calls Y has at most one open trade and the
    positions are within their limit. *)
Lemma session_positions_mirror_witness :
  count_open "Y" (trades (self (session busy_day fresh64))) <= 1
  /\ size (positions (strategy (session busy_day fresh64)))
     <= MAX_OPEN_POSITIONS.
Proof.
  destruct (session_positions_mirror busy_day fresh64) as (Hsym & Hsize).
  - vm_compute; reflexivity.
  - vm_compute; reflexivity.
  - vm_compute; reflexivity.
  - split; [apply (Hsym "Y") | exact Hsize].
Defined.

(** After the day of calls a further signal raises no [KeyError]. *)
Lemma session_never_key_error_witness :
  (execute_signal (signal_of SELL "Y" (flit 21)) None
     (session busy_day fresh64)).1 <> Raise KeyError.
Proof.
  apply (session_never_key_error busy_day (signal_of SELL "Y" (flit 21)) None
           fresh64).
  exists (flit 10000). vm_compute; reflexivity.
Defined.

(** A live SELL of a position of quantity 0 records nothing. *)
Lemma live_sell_of_zero_cost_position_witness :
  execute_signal (signal_of SELL "X" (flit 11)) None empty_position_world
  = (Return None, empty_position_world).
Proof.
  destruct (live_sell_of_zero_cost_position (signal_of SELL "X" (flit 11))
              None
              {| pos_symbol := "X"; pos_entry_price := flit 10;
                 pos_quantity := flit 0; opened_at := 0 |}
              answering_exchange empty_position_world) as [Hrun _].
  - reflexivity.
  - vm_compute; reflexivity.
  - vm_compute; reflexivity.
  - vm_compute; reflexivity.
  - vm_compute; reflexivity.
  - vm_compute; reflexivity.
  - exact Hrun.
Defined.

End MoreScenarios.

